(** * Ramadan campaign dashboard: the upload, cleaning and aggregation script

    A shallow embedding of [uploadfile.py].  The script reads an uploaded
    CSV file with pandas, renames the column headers, checks that six
    required columns are there, converts the date column, repairs the
    engagements column and, when all of that went through, draws five
    charts from group-by aggregates.

    A column header is a Python [str]: a sequence of Unicode code points,
    with Python's own white space and lower-case mapping.  The text of a
    field, the numbers of a column and the library's readers and sums are
    the library's: they are parameters of the model, with the contracts
    the script relies on. *)

From Stdlib Require Import Bool List ZArith NArith Lia String Ascii.
From Stdlib Require Import Permutation Sorted PeanoNat OrderedTypeEx.
Import ListNotations.

Open Scope string_scope.
Open Scope list_scope.

(** ** Python's [str] methods on the literals of the script *)

Module Str.

Definition isupper (c : ascii) : bool :=
  let n := nat_of_ascii c in ((65 <=? n) && (n <=? 90))%nat.

Definition islower (c : ascii) : bool :=
  let n := nat_of_ascii c in ((97 <=? n) && (n <=? 122))%nat.

Definition lower_char (c : ascii) : ascii :=
  if isupper c then ascii_of_nat (nat_of_ascii c + 32) else c.

Definition upper_char (c : ascii) : ascii :=
  if islower c then ascii_of_nat (nat_of_ascii c - 32) else c.

Fixpoint map (f : ascii -> ascii) (s : string) : string :=
  match s with
  | EmptyString => EmptyString
  | String c s' => String (f c) (map f s')
  end.

(** [s.capitalize()] for an ASCII literal: first character upper case,
    the rest lower case. *)
Definition capitalize (s : string) : string :=
  match s with
  | EmptyString => EmptyString
  | String c s' => String (upper_char c) (map lower_char s')
  end.

(** [sep.join(l)] *)
Fixpoint join (sep : string) (l : list string) : string :=
  match l with
  | [] => EmptyString
  | [s] => s
  | s :: l' => (s ++ sep ++ join sep l')%string
  end.

End Str.

(** ** Headers: Python strings *)

(** A string is the list of its code points. *)
Definition text : Type := list N.

(** The code points of an ASCII literal of the script. *)
Fixpoint codes (s : string) : text :=
  match s with
  | EmptyString => []
  | String c s' => N_of_ascii c :: codes s'
  end.

Module Text.

(** The code points for which [str.isspace] holds. *)
Definition whitespace : list N :=
  [9; 10; 11; 12; 13; 28; 29; 30; 31; 32; 133; 160; 5760; 8192; 8193; 8194;
   8195; 8196; 8197; 8198; 8199; 8200; 8201; 8202; 8232; 8233; 8239; 8287;
   12288]%N.

Definition isspace (c : N) : bool := existsb (N.eqb c) whitespace.

(** The code points that [str.lower] maps to one other code point, with
    their images (Unicode 14).  Two code points are apart from these:
    U+0130, which becomes the two code points U+0069 U+0307, and the
    capital sigma U+03A3, whose image depends on its place in the word. *)
Definition lowercase : list (N * N) :=
  [(65, 97); (66, 98); (67, 99); (68, 100); (69, 101); (70, 102); (71, 103);
   (72, 104); (73, 105); (74, 106); (75, 107); (76, 108); (77, 109);
   (78, 110); (79, 111); (80, 112); (81, 113); (82, 114); (83, 115);
   (84, 116); (85, 117); (86, 118); (87, 119); (88, 120); (89, 121);
   (90, 122); (192, 224); (193, 225); (194, 226); (195, 227); (196, 228);
   (197, 229); (198, 230); (199, 231); (200, 232); (201, 233); (202, 234);
   (203, 235); (204, 236); (205, 237); (206, 238); (207, 239); (208, 240);
   (209, 241); (210, 242); (211, 243); (212, 244); (213, 245); (214, 246);
   (216, 248); (217, 249); (218, 250); (219, 251); (220, 252); (221, 253);
   (222, 254); (256, 257); (258, 259); (260, 261); (262, 263); (264, 265);
   (266, 267); (268, 269); (270, 271); (272, 273); (274, 275); (276, 277);
   (278, 279); (280, 281); (282, 283); (284, 285); (286, 287); (288, 289);
   (290, 291); (292, 293); (294, 295); (296, 297); (298, 299); (300, 301);
   (302, 303); (306, 307); (308, 309); (310, 311); (313, 314); (315, 316);
   (317, 318); (319, 320); (321, 322); (323, 324); (325, 326); (327, 328);
   (330, 331); (332, 333); (334, 335); (336, 337); (338, 339); (340, 341);
   (342, 343); (344, 345); (346, 347); (348, 349); (350, 351); (352, 353);
   (354, 355); (356, 357); (358, 359); (360, 361); (362, 363); (364, 365);
   (366, 367); (368, 369); (370, 371); (372, 373); (374, 375); (376, 255);
   (377, 378); (379, 380); (381, 382); (385, 595); (386, 387); (388, 389);
   (390, 596); (391, 392); (393, 598); (394, 599); (395, 396); (398, 477);
   (399, 601); (400, 603); (401, 402); (403, 608); (404, 611); (406, 617);
   (407, 616); (408, 409); (412, 623); (413, 626); (415, 629); (416, 417);
   (418, 419); (420, 421); (422, 640); (423, 424); (425, 643); (428, 429);
   (430, 648); (431, 432); (433, 650); (434, 651); (435, 436); (437, 438);
   (439, 658); (440, 441); (444, 445); (452, 454); (453, 454); (455, 457);
   (456, 457); (458, 460); (459, 460); (461, 462); (463, 464); (465, 466);
   (467, 468); (469, 470); (471, 472); (473, 474); (475, 476); (478, 479);
   (480, 481); (482, 483); (484, 485); (486, 487); (488, 489); (490, 491);
   (492, 493); (494, 495); (497, 499); (498, 499); (500, 501); (502, 405);
   (503, 447); (504, 505); (506, 507); (508, 509); (510, 511); (512, 513);
   (514, 515); (516, 517); (518, 519); (520, 521); (522, 523); (524, 525);
   (526, 527); (528, 529); (530, 531); (532, 533); (534, 535); (536, 537);
   (538, 539); (540, 541); (542, 543); (544, 414); (546, 547); (548, 549);
   (550, 551); (552, 553); (554, 555); (556, 557); (558, 559); (560, 561);
   (562, 563); (570, 11365); (571, 572); (573, 410); (574, 11366);
   (577, 578); (579, 384); (580, 649); (581, 652); (582, 583); (584, 585);
   (586, 587); (588, 589); (590, 591); (880, 881); (882, 883); (886, 887);
   (895, 1011); (902, 940); (904, 941); (905, 942); (906, 943); (908, 972);
   (910, 973); (911, 974); (913, 945); (914, 946); (915, 947); (916, 948);
   (917, 949); (918, 950); (919, 951); (920, 952); (921, 953); (922, 954);
   (923, 955); (924, 956); (925, 957); (926, 958); (927, 959); (928, 960);
   (929, 961); (931, 963); (932, 964); (933, 965); (934, 966); (935, 967);
   (936, 968); (937, 969); (938, 970); (939, 971); (975, 983); (984, 985);
   (986, 987); (988, 989); (990, 991); (992, 993); (994, 995); (996, 997);
   (998, 999); (1000, 1001); (1002, 1003); (1004, 1005); (1006, 1007);
   (1012, 952); (1015, 1016); (1017, 1010); (1018, 1019); (1021, 891);
   (1022, 892); (1023, 893); (1024, 1104); (1025, 1105); (1026, 1106);
   (1027, 1107); (1028, 1108); (1029, 1109); (1030, 1110); (1031, 1111);
   (1032, 1112); (1033, 1113); (1034, 1114); (1035, 1115); (1036, 1116);
   (1037, 1117); (1038, 1118); (1039, 1119); (1040, 1072); (1041, 1073);
   (1042, 1074); (1043, 1075); (1044, 1076); (1045, 1077); (1046, 1078);
   (1047, 1079); (1048, 1080); (1049, 1081); (1050, 1082); (1051, 1083);
   (1052, 1084); (1053, 1085); (1054, 1086); (1055, 1087); (1056, 1088);
   (1057, 1089); (1058, 1090); (1059, 1091); (1060, 1092); (1061, 1093);
   (1062, 1094); (1063, 1095); (1064, 1096); (1065, 1097); (1066, 1098);
   (1067, 1099); (1068, 1100); (1069, 1101); (1070, 1102); (1071, 1103);
   (1120, 1121); (1122, 1123); (1124, 1125); (1126, 1127); (1128, 1129);
   (1130, 1131); (1132, 1133); (1134, 1135); (1136, 1137); (1138, 1139);
   (1140, 1141); (1142, 1143); (1144, 1145); (1146, 1147); (1148, 1149);
   (1150, 1151); (1152, 1153); (1162, 1163); (1164, 1165); (1166, 1167);
   (1168, 1169); (1170, 1171); (1172, 1173); (1174, 1175); (1176, 1177);
   (1178, 1179); (1180, 1181); (1182, 1183); (1184, 1185); (1186, 1187);
   (1188, 1189); (1190, 1191); (1192, 1193); (1194, 1195); (1196, 1197);
   (1198, 1199); (1200, 1201); (1202, 1203); (1204, 1205); (1206, 1207);
   (1208, 1209); (1210, 1211); (1212, 1213); (1214, 1215); (1216, 1231);
   (1217, 1218); (1219, 1220); (1221, 1222); (1223, 1224); (1225, 1226);
   (1227, 1228); (1229, 1230); (1232, 1233); (1234, 1235); (1236, 1237);
   (1238, 1239); (1240, 1241); (1242, 1243); (1244, 1245); (1246, 1247);
   (1248, 1249); (1250, 1251); (1252, 1253); (1254, 1255); (1256, 1257);
   (1258, 1259); (1260, 1261); (1262, 1263); (1264, 1265); (1266, 1267);
   (1268, 1269); (1270, 1271); (1272, 1273); (1274, 1275); (1276, 1277);
   (1278, 1279); (1280, 1281); (1282, 1283); (1284, 1285); (1286, 1287);
   (1288, 1289); (1290, 1291); (1292, 1293); (1294, 1295); (1296, 1297);
   (1298, 1299); (1300, 1301); (1302, 1303); (1304, 1305); (1306, 1307);
   (1308, 1309); (1310, 1311); (1312, 1313); (1314, 1315); (1316, 1317);
   (1318, 1319); (1320, 1321); (1322, 1323); (1324, 1325); (1326, 1327);
   (1329, 1377); (1330, 1378); (1331, 1379); (1332, 1380); (1333, 1381);
   (1334, 1382); (1335, 1383); (1336, 1384); (1337, 1385); (1338, 1386);
   (1339, 1387); (1340, 1388); (1341, 1389); (1342, 1390); (1343, 1391);
   (1344, 1392); (1345, 1393); (1346, 1394); (1347, 1395); (1348, 1396);
   (1349, 1397); (1350, 1398); (1351, 1399); (1352, 1400); (1353, 1401);
   (1354, 1402); (1355, 1403); (1356, 1404); (1357, 1405); (1358, 1406);
   (1359, 1407); (1360, 1408); (1361, 1409); (1362, 1410); (1363, 1411);
   (1364, 1412); (1365, 1413); (1366, 1414); (4256, 11520); (4257, 11521);
   (4258, 11522); (4259, 11523); (4260, 11524); (4261, 11525); (4262, 11526);
   (4263, 11527); (4264, 11528); (4265, 11529); (4266, 11530); (4267, 11531);
   (4268, 11532); (4269, 11533); (4270, 11534); (4271, 11535); (4272, 11536);
   (4273, 11537); (4274, 11538); (4275, 11539); (4276, 11540); (4277, 11541);
   (4278, 11542); (4279, 11543); (4280, 11544); (4281, 11545); (4282, 11546);
   (4283, 11547); (4284, 11548); (4285, 11549); (4286, 11550); (4287, 11551);
   (4288, 11552); (4289, 11553); (4290, 11554); (4291, 11555); (4292, 11556);
   (4293, 11557); (4295, 11559); (4301, 11565); (5024, 43888); (5025, 43889);
   (5026, 43890); (5027, 43891); (5028, 43892); (5029, 43893); (5030, 43894);
   (5031, 43895); (5032, 43896); (5033, 43897); (5034, 43898); (5035, 43899);
   (5036, 43900); (5037, 43901); (5038, 43902); (5039, 43903); (5040, 43904);
   (5041, 43905); (5042, 43906); (5043, 43907); (5044, 43908); (5045, 43909);
   (5046, 43910); (5047, 43911); (5048, 43912); (5049, 43913); (5050, 43914);
   (5051, 43915); (5052, 43916); (5053, 43917); (5054, 43918); (5055, 43919);
   (5056, 43920); (5057, 43921); (5058, 43922); (5059, 43923); (5060, 43924);
   (5061, 43925); (5062, 43926); (5063, 43927); (5064, 43928); (5065, 43929);
   (5066, 43930); (5067, 43931); (5068, 43932); (5069, 43933); (5070, 43934);
   (5071, 43935); (5072, 43936); (5073, 43937); (5074, 43938); (5075, 43939);
   (5076, 43940); (5077, 43941); (5078, 43942); (5079, 43943); (5080, 43944);
   (5081, 43945); (5082, 43946); (5083, 43947); (5084, 43948); (5085, 43949);
   (5086, 43950); (5087, 43951); (5088, 43952); (5089, 43953); (5090, 43954);
   (5091, 43955); (5092, 43956); (5093, 43957); (5094, 43958); (5095, 43959);
   (5096, 43960); (5097, 43961); (5098, 43962); (5099, 43963); (5100, 43964);
   (5101, 43965); (5102, 43966); (5103, 43967); (5104, 5112); (5105, 5113);
   (5106, 5114); (5107, 5115); (5108, 5116); (5109, 5117); (7312, 4304);
   (7313, 4305); (7314, 4306); (7315, 4307); (7316, 4308); (7317, 4309);
   (7318, 4310); (7319, 4311); (7320, 4312); (7321, 4313); (7322, 4314);
   (7323, 4315); (7324, 4316); (7325, 4317); (7326, 4318); (7327, 4319);
   (7328, 4320); (7329, 4321); (7330, 4322); (7331, 4323); (7332, 4324);
   (7333, 4325); (7334, 4326); (7335, 4327); (7336, 4328); (7337, 4329);
   (7338, 4330); (7339, 4331); (7340, 4332); (7341, 4333); (7342, 4334);
   (7343, 4335); (7344, 4336); (7345, 4337); (7346, 4338); (7347, 4339);
   (7348, 4340); (7349, 4341); (7350, 4342); (7351, 4343); (7352, 4344);
   (7353, 4345); (7354, 4346); (7357, 4349); (7358, 4350); (7359, 4351);
   (7680, 7681); (7682, 7683); (7684, 7685); (7686, 7687); (7688, 7689);
   (7690, 7691); (7692, 7693); (7694, 7695); (7696, 7697); (7698, 7699);
   (7700, 7701); (7702, 7703); (7704, 7705); (7706, 7707); (7708, 7709);
   (7710, 7711); (7712, 7713); (7714, 7715); (7716, 7717); (7718, 7719);
   (7720, 7721); (7722, 7723); (7724, 7725); (7726, 7727); (7728, 7729);
   (7730, 7731); (7732, 7733); (7734, 7735); (7736, 7737); (7738, 7739);
   (7740, 7741); (7742, 7743); (7744, 7745); (7746, 7747); (7748, 7749);
   (7750, 7751); (7752, 7753); (7754, 7755); (7756, 7757); (7758, 7759);
   (7760, 7761); (7762, 7763); (7764, 7765); (7766, 7767); (7768, 7769);
   (7770, 7771); (7772, 7773); (7774, 7775); (7776, 7777); (7778, 7779);
   (7780, 7781); (7782, 7783); (7784, 7785); (7786, 7787); (7788, 7789);
   (7790, 7791); (7792, 7793); (7794, 7795); (7796, 7797); (7798, 7799);
   (7800, 7801); (7802, 7803); (7804, 7805); (7806, 7807); (7808, 7809);
   (7810, 7811); (7812, 7813); (7814, 7815); (7816, 7817); (7818, 7819);
   (7820, 7821); (7822, 7823); (7824, 7825); (7826, 7827); (7828, 7829);
   (7838, 223); (7840, 7841); (7842, 7843); (7844, 7845); (7846, 7847);
   (7848, 7849); (7850, 7851); (7852, 7853); (7854, 7855); (7856, 7857);
   (7858, 7859); (7860, 7861); (7862, 7863); (7864, 7865); (7866, 7867);
   (7868, 7869); (7870, 7871); (7872, 7873); (7874, 7875); (7876, 7877);
   (7878, 7879); (7880, 7881); (7882, 7883); (7884, 7885); (7886, 7887);
   (7888, 7889); (7890, 7891); (7892, 7893); (7894, 7895); (7896, 7897);
   (7898, 7899); (7900, 7901); (7902, 7903); (7904, 7905); (7906, 7907);
   (7908, 7909); (7910, 7911); (7912, 7913); (7914, 7915); (7916, 7917);
   (7918, 7919); (7920, 7921); (7922, 7923); (7924, 7925); (7926, 7927);
   (7928, 7929); (7930, 7931); (7932, 7933); (7934, 7935); (7944, 7936);
   (7945, 7937); (7946, 7938); (7947, 7939); (7948, 7940); (7949, 7941);
   (7950, 7942); (7951, 7943); (7960, 7952); (7961, 7953); (7962, 7954);
   (7963, 7955); (7964, 7956); (7965, 7957); (7976, 7968); (7977, 7969);
   (7978, 7970); (7979, 7971); (7980, 7972); (7981, 7973); (7982, 7974);
   (7983, 7975); (7992, 7984); (7993, 7985); (7994, 7986); (7995, 7987);
   (7996, 7988); (7997, 7989); (7998, 7990); (7999, 7991); (8008, 8000);
   (8009, 8001); (8010, 8002); (8011, 8003); (8012, 8004); (8013, 8005);
   (8025, 8017); (8027, 8019); (8029, 8021); (8031, 8023); (8040, 8032);
   (8041, 8033); (8042, 8034); (8043, 8035); (8044, 8036); (8045, 8037);
   (8046, 8038); (8047, 8039); (8072, 8064); (8073, 8065); (8074, 8066);
   (8075, 8067); (8076, 8068); (8077, 8069); (8078, 8070); (8079, 8071);
   (8088, 8080); (8089, 8081); (8090, 8082); (8091, 8083); (8092, 8084);
   (8093, 8085); (8094, 8086); (8095, 8087); (8104, 8096); (8105, 8097);
   (8106, 8098); (8107, 8099); (8108, 8100); (8109, 8101); (8110, 8102);
   (8111, 8103); (8120, 8112); (8121, 8113); (8122, 8048); (8123, 8049);
   (8124, 8115); (8136, 8050); (8137, 8051); (8138, 8052); (8139, 8053);
   (8140, 8131); (8152, 8144); (8153, 8145); (8154, 8054); (8155, 8055);
   (8168, 8160); (8169, 8161); (8170, 8058); (8171, 8059); (8172, 8165);
   (8184, 8056); (8185, 8057); (8186, 8060); (8187, 8061); (8188, 8179);
   (8486, 969); (8490, 107); (8491, 229); (8498, 8526); (8544, 8560);
   (8545, 8561); (8546, 8562); (8547, 8563); (8548, 8564); (8549, 8565);
   (8550, 8566); (8551, 8567); (8552, 8568); (8553, 8569); (8554, 8570);
   (8555, 8571); (8556, 8572); (8557, 8573); (8558, 8574); (8559, 8575);
   (8579, 8580); (9398, 9424); (9399, 9425); (9400, 9426); (9401, 9427);
   (9402, 9428); (9403, 9429); (9404, 9430); (9405, 9431); (9406, 9432);
   (9407, 9433); (9408, 9434); (9409, 9435); (9410, 9436); (9411, 9437);
   (9412, 9438); (9413, 9439); (9414, 9440); (9415, 9441); (9416, 9442);
   (9417, 9443); (9418, 9444); (9419, 9445); (9420, 9446); (9421, 9447);
   (9422, 9448); (9423, 9449); (11264, 11312); (11265, 11313);
   (11266, 11314); (11267, 11315); (11268, 11316); (11269, 11317);
   (11270, 11318); (11271, 11319); (11272, 11320); (11273, 11321);
   (11274, 11322); (11275, 11323); (11276, 11324); (11277, 11325);
   (11278, 11326); (11279, 11327); (11280, 11328); (11281, 11329);
   (11282, 11330); (11283, 11331); (11284, 11332); (11285, 11333);
   (11286, 11334); (11287, 11335); (11288, 11336); (11289, 11337);
   (11290, 11338); (11291, 11339); (11292, 11340); (11293, 11341);
   (11294, 11342); (11295, 11343); (11296, 11344); (11297, 11345);
   (11298, 11346); (11299, 11347); (11300, 11348); (11301, 11349);
   (11302, 11350); (11303, 11351); (11304, 11352); (11305, 11353);
   (11306, 11354); (11307, 11355); (11308, 11356); (11309, 11357);
   (11310, 11358); (11311, 11359); (11360, 11361); (11362, 619);
   (11363, 7549); (11364, 637); (11367, 11368); (11369, 11370);
   (11371, 11372); (11373, 593); (11374, 625); (11375, 592); (11376, 594);
   (11378, 11379); (11381, 11382); (11390, 575); (11391, 576);
   (11392, 11393); (11394, 11395); (11396, 11397); (11398, 11399);
   (11400, 11401); (11402, 11403); (11404, 11405); (11406, 11407);
   (11408, 11409); (11410, 11411); (11412, 11413); (11414, 11415);
   (11416, 11417); (11418, 11419); (11420, 11421); (11422, 11423);
   (11424, 11425); (11426, 11427); (11428, 11429); (11430, 11431);
   (11432, 11433); (11434, 11435); (11436, 11437); (11438, 11439);
   (11440, 11441); (11442, 11443); (11444, 11445); (11446, 11447);
   (11448, 11449); (11450, 11451); (11452, 11453); (11454, 11455);
   (11456, 11457); (11458, 11459); (11460, 11461); (11462, 11463);
   (11464, 11465); (11466, 11467); (11468, 11469); (11470, 11471);
   (11472, 11473); (11474, 11475); (11476, 11477); (11478, 11479);
   (11480, 11481); (11482, 11483); (11484, 11485); (11486, 11487);
   (11488, 11489); (11490, 11491); (11499, 11500); (11501, 11502);
   (11506, 11507); (42560, 42561); (42562, 42563); (42564, 42565);
   (42566, 42567); (42568, 42569); (42570, 42571); (42572, 42573);
   (42574, 42575); (42576, 42577); (42578, 42579); (42580, 42581);
   (42582, 42583); (42584, 42585); (42586, 42587); (42588, 42589);
   (42590, 42591); (42592, 42593); (42594, 42595); (42596, 42597);
   (42598, 42599); (42600, 42601); (42602, 42603); (42604, 42605);
   (42624, 42625); (42626, 42627); (42628, 42629); (42630, 42631);
   (42632, 42633); (42634, 42635); (42636, 42637); (42638, 42639);
   (42640, 42641); (42642, 42643); (42644, 42645); (42646, 42647);
   (42648, 42649); (42650, 42651); (42786, 42787); (42788, 42789);
   (42790, 42791); (42792, 42793); (42794, 42795); (42796, 42797);
   (42798, 42799); (42802, 42803); (42804, 42805); (42806, 42807);
   (42808, 42809); (42810, 42811); (42812, 42813); (42814, 42815);
   (42816, 42817); (42818, 42819); (42820, 42821); (42822, 42823);
   (42824, 42825); (42826, 42827); (42828, 42829); (42830, 42831);
   (42832, 42833); (42834, 42835); (42836, 42837); (42838, 42839);
   (42840, 42841); (42842, 42843); (42844, 42845); (42846, 42847);
   (42848, 42849); (42850, 42851); (42852, 42853); (42854, 42855);
   (42856, 42857); (42858, 42859); (42860, 42861); (42862, 42863);
   (42873, 42874); (42875, 42876); (42877, 7545); (42878, 42879);
   (42880, 42881); (42882, 42883); (42884, 42885); (42886, 42887);
   (42891, 42892); (42893, 613); (42896, 42897); (42898, 42899);
   (42902, 42903); (42904, 42905); (42906, 42907); (42908, 42909);
   (42910, 42911); (42912, 42913); (42914, 42915); (42916, 42917);
   (42918, 42919); (42920, 42921); (42922, 614); (42923, 604); (42924, 609);
   (42925, 620); (42926, 618); (42928, 670); (42929, 647); (42930, 669);
   (42931, 43859); (42932, 42933); (42934, 42935); (42936, 42937);
   (42938, 42939); (42940, 42941); (42942, 42943); (42944, 42945);
   (42946, 42947); (42948, 42900); (42949, 642); (42950, 7566);
   (42951, 42952); (42953, 42954); (42960, 42961); (42966, 42967);
   (42968, 42969); (42997, 42998); (65313, 65345); (65314, 65346);
   (65315, 65347); (65316, 65348); (65317, 65349); (65318, 65350);
   (65319, 65351); (65320, 65352); (65321, 65353); (65322, 65354);
   (65323, 65355); (65324, 65356); (65325, 65357); (65326, 65358);
   (65327, 65359); (65328, 65360); (65329, 65361); (65330, 65362);
   (65331, 65363); (65332, 65364); (65333, 65365); (65334, 65366);
   (65335, 65367); (65336, 65368); (65337, 65369); (65338, 65370);
   (66560, 66600); (66561, 66601); (66562, 66602); (66563, 66603);
   (66564, 66604); (66565, 66605); (66566, 66606); (66567, 66607);
   (66568, 66608); (66569, 66609); (66570, 66610); (66571, 66611);
   (66572, 66612); (66573, 66613); (66574, 66614); (66575, 66615);
   (66576, 66616); (66577, 66617); (66578, 66618); (66579, 66619);
   (66580, 66620); (66581, 66621); (66582, 66622); (66583, 66623);
   (66584, 66624); (66585, 66625); (66586, 66626); (66587, 66627);
   (66588, 66628); (66589, 66629); (66590, 66630); (66591, 66631);
   (66592, 66632); (66593, 66633); (66594, 66634); (66595, 66635);
   (66596, 66636); (66597, 66637); (66598, 66638); (66599, 66639);
   (66736, 66776); (66737, 66777); (66738, 66778); (66739, 66779);
   (66740, 66780); (66741, 66781); (66742, 66782); (66743, 66783);
   (66744, 66784); (66745, 66785); (66746, 66786); (66747, 66787);
   (66748, 66788); (66749, 66789); (66750, 66790); (66751, 66791);
   (66752, 66792); (66753, 66793); (66754, 66794); (66755, 66795);
   (66756, 66796); (66757, 66797); (66758, 66798); (66759, 66799);
   (66760, 66800); (66761, 66801); (66762, 66802); (66763, 66803);
   (66764, 66804); (66765, 66805); (66766, 66806); (66767, 66807);
   (66768, 66808); (66769, 66809); (66770, 66810); (66771, 66811);
   (66928, 66967); (66929, 66968); (66930, 66969); (66931, 66970);
   (66932, 66971); (66933, 66972); (66934, 66973); (66935, 66974);
   (66936, 66975); (66937, 66976); (66938, 66977); (66940, 66979);
   (66941, 66980); (66942, 66981); (66943, 66982); (66944, 66983);
   (66945, 66984); (66946, 66985); (66947, 66986); (66948, 66987);
   (66949, 66988); (66950, 66989); (66951, 66990); (66952, 66991);
   (66953, 66992); (66954, 66993); (66956, 66995); (66957, 66996);
   (66958, 66997); (66959, 66998); (66960, 66999); (66961, 67000);
   (66962, 67001); (66964, 67003); (66965, 67004); (68736, 68800);
   (68737, 68801); (68738, 68802); (68739, 68803); (68740, 68804);
   (68741, 68805); (68742, 68806); (68743, 68807); (68744, 68808);
   (68745, 68809); (68746, 68810); (68747, 68811); (68748, 68812);
   (68749, 68813); (68750, 68814); (68751, 68815); (68752, 68816);
   (68753, 68817); (68754, 68818); (68755, 68819); (68756, 68820);
   (68757, 68821); (68758, 68822); (68759, 68823); (68760, 68824);
   (68761, 68825); (68762, 68826); (68763, 68827); (68764, 68828);
   (68765, 68829); (68766, 68830); (68767, 68831); (68768, 68832);
   (68769, 68833); (68770, 68834); (68771, 68835); (68772, 68836);
   (68773, 68837); (68774, 68838); (68775, 68839); (68776, 68840);
   (68777, 68841); (68778, 68842); (68779, 68843); (68780, 68844);
   (68781, 68845); (68782, 68846); (68783, 68847); (68784, 68848);
   (68785, 68849); (68786, 68850); (71840, 71872); (71841, 71873);
   (71842, 71874); (71843, 71875); (71844, 71876); (71845, 71877);
   (71846, 71878); (71847, 71879); (71848, 71880); (71849, 71881);
   (71850, 71882); (71851, 71883); (71852, 71884); (71853, 71885);
   (71854, 71886); (71855, 71887); (71856, 71888); (71857, 71889);
   (71858, 71890); (71859, 71891); (71860, 71892); (71861, 71893);
   (71862, 71894); (71863, 71895); (71864, 71896); (71865, 71897);
   (71866, 71898); (71867, 71899); (71868, 71900); (71869, 71901);
   (71870, 71902); (71871, 71903); (93760, 93792); (93761, 93793);
   (93762, 93794); (93763, 93795); (93764, 93796); (93765, 93797);
   (93766, 93798); (93767, 93799); (93768, 93800); (93769, 93801);
   (93770, 93802); (93771, 93803); (93772, 93804); (93773, 93805);
   (93774, 93806); (93775, 93807); (93776, 93808); (93777, 93809);
   (93778, 93810); (93779, 93811); (93780, 93812); (93781, 93813);
   (93782, 93814); (93783, 93815); (93784, 93816); (93785, 93817);
   (93786, 93818); (93787, 93819); (93788, 93820); (93789, 93821);
   (93790, 93822); (93791, 93823); (125184, 125218); (125185, 125219);
   (125186, 125220); (125187, 125221); (125188, 125222); (125189, 125223);
   (125190, 125224); (125191, 125225); (125192, 125226); (125193, 125227);
   (125194, 125228); (125195, 125229); (125196, 125230); (125197, 125231);
   (125198, 125232); (125199, 125233); (125200, 125234); (125201, 125235);
   (125202, 125236); (125203, 125237); (125204, 125238); (125205, 125239);
   (125206, 125240); (125207, 125241); (125208, 125242); (125209, 125243);
   (125210, 125244); (125211, 125245); (125212, 125246); (125213, 125247);
   (125214, 125248); (125215, 125249); (125216, 125250); (125217, 125251)]%N.

Fixpoint assoc (c : N) (table : list (N * N)) : option N :=
  match table with
  | [] => None
  | (k, d) :: table' => if N.eqb c k then Some d else assoc c table'
  end.

(** [chr(c).lower()] *)
Definition lower_cp (c : N) : text :=
  if N.eqb c 304 then [105; 775]%N
  else match assoc c lowercase with
       | Some d => [d]
       | None => [c]
       end.

Fixpoint lstrip (s : text) : text :=
  match s with
  | [] => []
  | c :: s' => if isspace c then lstrip s' else s
  end.

Fixpoint rstrip (s : text) : text :=
  match s with
  | [] => []
  | c :: s' =>
      match rstrip s' with
      | [] => if isspace c then [] else [c]
      | r => c :: r
      end
  end.

(** [s.strip()] *)
Definition strip (s : text) : text := rstrip (lstrip s).

(** [s.replace(old, new)] for one-character [old] and [new]. *)
Definition replace (old new : N) (s : text) : text :=
  map (fun c => if N.eqb c old then new else c) s.

Fixpoint eqb (s t : text) : bool :=
  match s, t with
  | [], [] => true
  | c :: s', d :: t' => N.eqb c d && eqb s' t'
  | _, _ => false
  end.

End Text.

(** Python lowers a capital sigma to the final form when it ends a word,
    which it tells from the cased letters around it.
    [final_sigma before after] is that test for a sigma standing after
    [before] (nearest code point first) and in front of [after]. *)
Class Unicode : Type := {
  final_sigma : text -> text -> bool
}.

Section Headers.

Context {U : Unicode}.

Fixpoint lower_from (before s : text) : text :=
  match s with
  | [] => []
  | c :: after =>
      (if N.eqb c 931
       then [if final_sigma before after then 962%N else 963%N]
       else Text.lower_cp c)
      ++ lower_from (c :: before) after
  end.

(** [s.lower()] *)
Definition lower (s : text) : text := lower_from [] s.

(** ** Column headers (source lines 26 to 32) *)

(** [df.columns.str.strip().str.lower().str.replace(' ', '_')], on one
    header. *)
Definition normalize (c : text) : text :=
  Text.replace 32 95 (lower (Text.strip c)).

End Headers.

Definition required_columns : list string :=
  ["date"; "platform"; "sentiment"; "location"; "engagements"; "media_type"].

(** ** Frames

    A cell holds the text of a CSV field, or nothing when [pd.read_csv]
    read the field as missing (NaN).  A frame is the list of its columns in
    file order, each with its header; headers can repeat once they have
    been renamed, so the frame is an association list. *)

Definition cell : Type := option string.
Definition Series : Type := list cell.
Definition DataFrame : Type := list (text * Series).

(** [df.columns] *)
Definition columns {A : Type} (df : list (text * A)) : list text := map fst df.

(** [df.columns = f(df.columns)] *)
Definition rename (f : text -> text) (df : DataFrame) : DataFrame :=
  map (fun col => (f (fst col), snd col)) df.

(** [len(df)]: every column of a frame has the same length. *)
Definition nrows (df : DataFrame) : nat :=
  match df with
  | [] => 0
  | (_, s) :: _ => List.length s
  end.

(** [df[key]]: a column when one header matches, a sub-frame when several
    do, a [KeyError] when none does. *)
Inductive selection (A : Type) : Type :=
| NoColumn
| OneColumn (s : A)
| SubFrame (cols : list A).
Arguments NoColumn {A}.
Arguments OneColumn {A} s.
Arguments SubFrame {A} cols.

Definition getitem {A : Type} (df : list (text * A)) (key : string) : selection A :=
  match filter (fun col => Text.eqb (fst col) (codes key)) df with
  | [] => NoColumn
  | [col] => OneColumn (snd col)
  | cols => SubFrame (map snd cols)
  end.

(** [col in df.columns] *)
Definition has_column {A : Type} (df : list (text * A)) (col : string) : bool :=
  existsb (Text.eqb (codes col)) (columns df).

(** [all(col in df.columns for col in required_columns)] *)
Definition schema_ok (df : DataFrame) : bool :=
  forallb (has_column df) required_columns.

(** The required columns that [df] lacks. *)
Definition missing_columns (df : DataFrame) : list string :=
  filter (fun col => negb (has_column df col)) required_columns.

(** ** The library's numbers, readers and sort *)

(** Total of a list of integers. *)
Definition total (vals : list Z) : Z := fold_right Z.add 0%Z vals.

(** The numbers of a numeric column ([int64] or [float64]), with the
    column sum [.sum()] and the order [sort_values] sorts by.  [of_Z z] is
    the number that the integer [z] is in the column.  The sum and the
    order are exact on integers as long as the magnitudes summed stay
    within 2^53; beyond that an [int64] sum wraps around and a [float64]
    sum rounds. *)
Class Numbers : Type := {
  num : Type;
  of_Z : Z -> num;
  sum : list num -> num;
  leb : num -> num -> bool;
  leb_total : forall a b, leb a b = true \/ leb b a = true;
  leb_trans : forall a b c, leb a b = true -> leb b c = true -> leb a c = true;
  sum_exact :
    forall zs, (total (map Z.abs zs) <= 2 ^ 53)%Z ->
               sum (map of_Z zs) = of_Z (total zs);
  leb_exact :
    forall a b, (Z.abs a <= 2 ^ 53)%Z -> (Z.abs b <= 2 ^ 53)%Z ->
                leb (of_Z a) (of_Z b) = (a <=? b)%Z
}.

(** How pandas reads the text of one field as an instant or as a number
    is the library's business; the script only sees whether it worked.
    The reading of a field can depend on the column it stands in (the
    date format is inferred from the column, the number is an [int64] or
    a [float64] with the column), so the readers take the column too.  An
    instant is an integer (a position on the time line). *)
Class Parsers {N : Numbers} : Type := {
  parse_datetime : Series -> string -> option Z;
  parse_numeric : Series -> string -> option num
}.

(** The order [sort_values(..., ascending=False)] leaves the rows in.
    The call takes the library's default sort kind, which is not one of
    its stable kinds: the rows come back rearranged, largest value
    first, and where rows with equal values land is not fixed. *)
Definition descending_by {K V : Type} (le : V -> V -> bool) (a b : K * V) : Prop :=
  le (snd b) (snd a) = true.

Definition descending {K : Type} (a b : K * Z) : Prop := (snd b <= snd a)%Z.

Class SortValues : Type := {
  sort_values :
    forall {K V : Type}, (V -> V -> bool) -> list (K * V) -> list (K * V);
  sort_values_perm :
    forall (K V : Type) (le : V -> V -> bool) (l : list (K * V)),
      Permutation l (sort_values le l);
  sort_values_sorted :
    forall (K V : Type) (le : V -> V -> bool) (l : list (K * V)),
      (forall a b, le a b = true \/ le b a = true) ->
      (forall a b c, le a b = true -> le b c = true -> le a c = true) ->
      StronglySorted (descending_by le) (sort_values le l)
}.

(** ** Messages, exceptions and the page *)

Inductive exn : Type :=
| EmptyDataError
| ParserError
| Exception (e : string).

Section Page.

Context {N : Numbers}.

(** A column of the frame once it is cleaned: text as read, or the
    instants or numbers that lines 36 and 43 put in its place. *)
Inductive column : Type :=
| text_column (s : Series)
| datetime_column (ts : list (option Z))
| numeric_column (ns : list num).

Definition Dataset : Type := list (text * column).

Inductive figure : Type :=
| pie (title : string) (data : list (string * Z))
| bar (title : string) (data : list (string * num))
| line (title : string) (data : list (Z * num)).

(** What the script puts on the page, status messages and charts only. *)
Inductive event : Type :=
| st_success (msg : string)
| st_error (msg : string)
| st_info (msg : string)
| st_dataframe (preview : Dataset)
| st_plotly_chart (fig : figure).

End Page.

Inductive outcome (A : Type) : Type :=
| Return (a : A)
| Raise (x : exn).
Arguments Return {A} a.
Arguments Raise {A} x.

Section Monad.

Context {N : Numbers}.

(** A run of a piece of the script: it appends to the page and returns or
    raises. *)
Definition M (A : Type) : Type := list event -> outcome A * list event.

Definition ret {A : Type} (a : A) : M A := fun page => (Return a, page).

Definition raise {A : Type} (x : exn) : M A := fun page => (Raise x, page).

Definition bind {A B : Type} (m : M A) (k : A -> M B) : M B :=
  fun page =>
    match m page with
    | (Return a, page') => k a page'
    | (Raise x, page') => (Raise x, page')
    end.

Definition show (e : event) : M unit := fun page => (Return tt, page ++ [e]).

(** [try: m except ...: handler] *)
Definition try_except {A : Type} (m : M A) (handler : exn -> M A) : M A :=
  fun page =>
    match m page with
    | (Return a, page') => (Return a, page')
    | (Raise x, page') => handler x page'
    end.

End Monad.

Declare Scope script_scope.
Delimit Scope script_scope with script.
Notation "x <- m ;; k" := (bind m (fun x => k))
  (at level 61, m at next level, right associativity) : script_scope.
Notation "m ;; k" := (bind m (fun _ => k))
  (at level 61, right associativity) : script_scope.
Open Scope script_scope.

(** The spec's names for the ways an upload is turned down. *)
Inductive error : Type :=
| EmptyInputError
| MalformedTableError
| SchemaError
| DateCoercionError
| UnexpectedError (e : string).

(** The f-string of line 31, as a function of the names it joins. *)
Definition columns_message (names : list string) : string :=
  ("Error: Missing one or more required columns after cleaning. Please ensure your CSV has these columns: **"
   ++ Str.join ", " names ++ "**.")%string.

Definition message (e : error) : string :=
  match e with
  | EmptyInputError =>
      "The uploaded CSV file is empty. Please upload a file with data."
  | MalformedTableError =>
      "Could not parse the CSV file. Please ensure it's a valid CSV format."
  | SchemaError =>
      columns_message (map Str.capitalize required_columns)
  | DateCoercionError =>
      "Error: 'Date' column could not be converted to a datetime format. Please check your data."
  | UnexpectedError e =>
      ("An unexpected error occurred during file processing: " ++ e
       ++ ". Please check your CSV file and try again.")%string
  end.

(** ** Reading the upload (source line 21)

    The uploaded bytes reach the script only through [pd.read_csv].  What
    the library makes of them is one of: no header line at all (a file of
    zero bytes, or of blank lines only), for which it raises
    [EmptyDataError]; text it cannot tokenize, [ParserError]; some other
    exception; or a frame.  A file that is a header line and nothing else
    is a frame whose columns are all empty. *)
Inductive upload : Type :=
| no_columns
| malformed
| unreadable (e : string)
| table (df : DataFrame).

(** ** Grouping

    [df.groupby(key)]: one group per key that occurs, in ascending key
    order, holding the values of its rows in row order; rows whose key is
    missing belong to no group. *)

Section GroupBy.

Context {K V : Type} (cmp : K -> K -> comparison).

Fixpoint add_group (k : K) (v : V) (groups : list (K * list V))
  : list (K * list V) :=
  match groups with
  | [] => [(k, [v])]
  | (k', vs) :: rest =>
      match cmp k k' with
      | Eq => (k', vs ++ [v]) :: rest
      | Lt => (k, [v]) :: groups
      | Gt => (k', vs) :: add_group k v rest
      end
  end.

Definition add_row (groups : list (K * list V)) (row : option K * V)
  : list (K * list V) :=
  match fst row with
  | Some k => add_group k (snd row) groups
  | None => groups
  end.

Definition groupby (keys : list (option K)) (vals : list V) : list (K * list V) :=
  fold_left add_row (combine keys vals) [].

(** [df.groupby(key)[value].agg()] for a reduction [agg] of a group. *)
Definition aggregate {W : Type} (agg : list V -> W) (groups : list (K * list V))
  : list (K * W) :=
  map (fun g => (fst g, agg (snd g))) groups.

End GroupBy.

(** The values, in row order, of the rows whose key is [k]. *)
Definition values_of {V : Type} (k : string) (keys : Series) (vals : list V)
  : list V :=
  map snd
    (filter (fun row => match fst row with
                        | Some k' => String.eqb k k'
                        | None => false
                        end)
            (combine keys vals)).

(** The values of the rows that have a key. *)
Definition present {K V : Type} (rows : list (option K * V)) : list V :=
  map snd (filter (fun row => match fst row with Some _ => true | None => false end) rows).

(** The labels that occur in a column. *)
Fixpoint labels (s : Series) : list string :=
  match s with
  | [] => []
  | None :: s' => labels s'
  | Some k :: s' => k :: labels s'
  end.

Definition distinct (s : Series) : list string := nodup string_dec (labels s).

Section Frames.

Context {N : Numbers}.

Definition read_csv (u : upload) : M DataFrame :=
  match u with
  | no_columns => raise EmptyDataError
  | malformed => raise ParserError
  | unreadable e => raise (Exception e)
  | table df => ret df
  end.

(** [s.fillna(0)] *)
Definition fillna (s : list (option num)) : list num :=
  map (fun c => match c with Some n => n | None => of_Z 0 end) s.

(** The frame as read, every column text. *)
Definition as_read (df : DataFrame) : Dataset :=
  map (fun col => (fst col, text_column (snd col))) df.

(** [df[key] = col]: the column of that header is replaced where it
    stands; with no such header the column is added at the end. *)
Definition setitem (df : Dataset) (key : string) (col : column) : Dataset :=
  if has_column df key
  then map (fun c => if Text.eqb (fst c) (codes key) then (fst c, col) else c) df
  else df ++ [(codes key, col)].

Definition head_column (c : column) : column :=
  match c with
  | text_column s => text_column (firstn 5 s)
  | datetime_column ts => datetime_column (firstn 5 ts)
  | numeric_column ns => numeric_column (firstn 5 ns)
  end.

(** [df.head()] *)
Definition head_rows (df : Dataset) : Dataset :=
  map (fun col => (fst col, head_column (snd col))) df.

End Frames.

Section Script.

Context {U : Unicode} {N : Numbers} {P : Parsers} {S : SortValues}.

(** ** Cleaning (source lines 19 to 61) *)

Definition to_datetime_cell (s : Series) (c : cell) : option (option Z) :=
  match c with
  | None => Some None
  | Some text =>
      match parse_datetime s text with
      | Some t => Some (Some t)
      | None => None
      end
  end.

Fixpoint convert_all {A B : Type} (f : A -> option B) (l : list A)
  : option (list B) :=
  match l with
  | [] => Some []
  | a :: l' =>
      match f a, convert_all f l' with
      | Some b, Some bs => Some (b :: bs)
      | _, _ => None
      end
  end.

Definition to_datetime_series (s : Series) : option (list (option Z)) :=
  convert_all (to_datetime_cell s) s.

(** [pd.to_datetime(df['date'])]: every field of the column is read; a
    missing field becomes the missing instant (NaT), a field that cannot
    be read raises.  A sub-frame is not a column of dates and raises. *)
Definition to_datetime (arg : selection Series) : M (list (option Z)) :=
  match arg with
  | OneColumn s =>
      match to_datetime_series s with
      | Some ts => ret ts
      | None => raise (Exception "Unknown datetime string format")
      end
  | SubFrame _ => raise (Exception "cannot assemble with duplicate keys")
  | NoColumn => raise (Exception "'date'")
  end.

Definition to_numeric_cell (s : Series) (c : cell) : option num :=
  match c with
  | None => None
  | Some text => parse_numeric s text
  end.

(** [pd.to_numeric(df['engagements'], errors='coerce')]: a field that is
    no number becomes missing (NaN).  A sub-frame raises. *)
Definition to_numeric (arg : selection Series) : M (list (option num)) :=
  match arg with
  | OneColumn s => ret (map (to_numeric_cell s) s)
  | SubFrame _ => raise (Exception "arg must be a list, tuple, 1-d array, or Series")
  | NoColumn => raise (Exception "'engagements'")
  end.

(** Lines 34 to 39, the conversion and its [except]. *)
Definition coerceDate (df : DataFrame) : M (option (list (option Z))) :=
  try_except
    (ts <- to_datetime (getitem df "date") ;; ret (Some ts))
    (fun _ => show (st_error (message DateCoercionError)) ;; ret None).

(** Line 43, the right-hand side. *)
Definition repairEngagements (df : DataFrame) : M (list num) :=
  ns <- to_numeric (getitem df "engagements") ;; ret (fillna ns).

(** The frame after lines 36 and 43: the converted columns stand where
    the text ones stood. *)
Definition cleaned_frame (df : DataFrame) (ts : list (option Z)) (ns : list num)
  : Dataset :=
  setitem (setitem (as_read df) "date" (datetime_column ts))
          "engagements" (numeric_column ns).

(** The body of the [try] block, lines 21 to 51.  Line 43 reads
    [df['engagements']] after line 36 has replaced [df['date']]; the
    assignment of line 36 changes no other column, so the column read is
    the one of the renamed frame. *)
Definition process (u : upload) : M (option Dataset) :=
  df <- read_csv u ;;
  show (st_success "CSV file uploaded successfully! Processing data...") ;;
  let df := rename normalize df in
  if negb (schema_ok df) then
    show (st_error (message SchemaError)) ;; ret None
  else
    d <- coerceDate df ;;
    match d with
    | None => ret None
    | Some ts =>
        ns <- repairEngagements df ;;
        let df := cleaned_frame df ts ns in
        show (st_success "Data successfully cleaned and prepared for analysis!") ;;
        show (st_dataframe (head_rows df)) ;;
        ret (Some df)
    end.

(** The [except] clauses, lines 53 to 61. *)
Definition handler (x : exn) : M (option Dataset) :=
  match x with
  | EmptyDataError => show (st_error (message EmptyInputError)) ;; ret None
  | ParserError => show (st_error (message MalformedTableError)) ;; ret None
  | Exception e => show (st_error (message (UnexpectedError e))) ;; ret None
  end.

(** Lines 17 to 61: the value of [df] when the charts are reached. *)
Definition load (uploaded_file : option upload) : M (option Dataset) :=
  match uploaded_file with
  | None => ret None
  | Some u => try_except (process u) handler
  end.

(** ** The five views (source lines 64 to 170) *)

(** [df[key]] where the chart code takes a column of labels, of instants
    or of numbers.  In a cleaned frame the label columns are text, [date]
    holds instants and [engagements] numbers; a column of another kind is
    not met there. *)
Definition labels_of (df : Dataset) (key : string) : M Series :=
  match getitem df key with
  | OneColumn (text_column s) => ret s
  | OneColumn _ => raise (Exception "not a column of labels")
  | SubFrame _ => raise (Exception "Grouper not 1-dimensional")
  | NoColumn => raise (Exception key)
  end.

Definition instants_of (df : Dataset) (key : string) : M (list (option Z)) :=
  match getitem df key with
  | OneColumn (datetime_column ts) => ret ts
  | OneColumn _ => raise (Exception "not a column of instants")
  | SubFrame _ => raise (Exception "Grouper not 1-dimensional")
  | NoColumn => raise (Exception key)
  end.

Definition numbers_of (df : Dataset) (key : string) : M (list num) :=
  match getitem df key with
  | OneColumn (numeric_column ns) => ret ns
  | OneColumn _ => raise (Exception "not a column of numbers")
  | SubFrame _ => raise (Exception "Cannot subset columns")
  | NoColumn => raise (Exception key)
  end.

(** [s.value_counts().reset_index()] *)
Definition value_counts (s : Series) : list (string * Z) :=
  sort_values Z.leb
    (aggregate (fun rows => Z.of_nat (List.length rows))
               (groupby String.compare s s)).

(** [df.groupby(key)['engagements'].sum().reset_index()] *)
Definition groupby_sum {K : Type} (cmp : K -> K -> comparison)
  (keys : list (option K)) (vals : list num) : list (K * num) :=
  aggregate sum (groupby cmp keys vals).

Definition platform_engagements (platform : Series) (engagements : list num)
  : list (string * num) :=
  sort_values leb (groupby_sum String.compare platform engagements).

Definition engagements_over_time (date : list (option Z)) (engagements : list num)
  : list (Z * num) :=
  groupby_sum Z.compare date engagements.

Definition location_engagements (location : Series) (engagements : list num)
  : list (string * num) :=
  groupby_sum String.compare location engagements.

Definition top_5_locations (location : Series) (engagements : list num)
  : list (string * num) :=
  firstn 5 (sort_values leb (location_engagements location engagements)).

Definition charts (df : Dataset) : M unit :=
  sentiment <- labels_of df "sentiment" ;;
  show (st_plotly_chart
          (pie "**Overall Sentiment Distribution**" (value_counts sentiment))) ;;
  platform <- labels_of df "platform" ;;
  engagements <- numbers_of df "engagements" ;;
  show (st_plotly_chart
          (bar "**Total Engagements Across Platforms**"
               (platform_engagements platform engagements))) ;;
  date <- instants_of df "date" ;;
  engagements <- numbers_of df "engagements" ;;
  show (st_plotly_chart
          (line "**Total Engagements Trend Throughout the Campaign**"
                (engagements_over_time date engagements))) ;;
  media_type <- labels_of df "media_type" ;;
  show (st_plotly_chart
          (pie "**Distribution of Content Media Types**" (value_counts media_type))) ;;
  location <- labels_of df "location" ;;
  engagements <- numbers_of df "engagements" ;;
  show (st_plotly_chart
          (bar "**Top 5 Locations by Total Engagements**"
               (top_5_locations location engagements))).

(** The script from the upload on. *)
Definition main (uploaded_file : option upload) : M unit :=
  df <- load uploaded_file ;;
  match df with
  | Some df => charts df
  | None =>
      show (st_info
        "Please upload your CSV file above to start analyzing your Ramadan Campaign data.")
  end.

End Script.

(** ** Reference instances

    A reader of plain decimal integers and of ISO calendar dates
    ([YYYY-MM-DD]), texts that the library reads the same way in any
    column; the exact integers and the [int64] integers as numbers; a
    sort that meets the contract of [sort_values]; and, for headers that
    hold no capital sigma, a sigma test that is never asked. *)

Definition digit (c : ascii) : option Z :=
  let n := nat_of_ascii c in
  if ((48 <=? n) && (n <=? 57))%nat then Some (Z.of_nat (n - 48)) else None.

Fixpoint number (acc : Z) (s : string) : option Z :=
  match s with
  | EmptyString => Some acc
  | String c s' =>
      match digit c with
      | Some d => number (10 * acc + d) s'
      | None => None
      end
  end.

Definition integer (s : string) : option Z :=
  match s with
  | EmptyString => None
  | String "-" EmptyString => None
  | String "-" s' => option_map Z.opp (number 0 s')
  | _ => number 0 s
  end.

Definition leap (y : Z) : bool :=
  ((y mod 4 =? 0) && (negb (y mod 100 =? 0) || (y mod 400 =? 0)))%Z.

Definition days_in_month (y m : Z) : Z :=
  if (m =? 2)%Z then (if leap y then 29 else 28)%Z
  else if ((m =? 4) || (m =? 6) || (m =? 9) || (m =? 11))%Z then 30%Z
  else 31%Z.

Definition iso_date (s : string) : option Z :=
  match s with
  | String y1 (String y2 (String y3 (String y4 (String "-"
      (String m1 (String m2 (String "-" (String d1 (String d2 EmptyString))))))))) =>
      match number 0 (String y1 (String y2 (String y3 (String y4 EmptyString)))),
            number 0 (String m1 (String m2 EmptyString)),
            number 0 (String d1 (String d2 EmptyString)) with
      | Some y, Some m, Some d =>
          if ((1678 <=? y) && (y <=? 2261) && (1 <=? m) && (m <=? 12)
              && (1 <=? d) && (d <=? days_in_month y m))%Z
          then Some (y * 10000 + m * 100 + d)%Z
          else None
      | _, _, _ => None
      end
  | _ => None
  end.

Definition plain {N : Numbers} : Parsers :=
  {| parse_datetime := fun _ text => iso_date text;
     parse_numeric := fun _ text => option_map of_Z (integer text) |}.

Definition no_sigma : Unicode := {| final_sigma := fun _ _ => false |}.

(** The value of a 64-bit two's complement integer. *)
Definition wrap (z : Z) : Z := ((z + 2 ^ 63) mod 2 ^ 64 - 2 ^ 63)%Z.

(** The sum of an [int64] column: each addition wraps around. *)
Definition wrapping_sum (l : list Z) : Z :=
  fold_left (fun a b => wrap (a + b)) l 0%Z.

Section Insertion.

Context {K V : Type} (before : V -> V -> bool).

Fixpoint insert (x : K * V) (l : list (K * V)) : list (K * V) :=
  match l with
  | [] => [x]
  | y :: l' => if before (snd y) (snd x) then x :: l else y :: insert x l'
  end.

Definition insertion_sort (l : list (K * V)) : list (K * V) :=
  fold_right insert [] l.

End Insertion.

(** ** Header variants

    [variant r h]: the header [h] is the required name [r] up to the case
    of its letters, a space for an underscore, and white space around. *)

Definition char_variant (c h : N) : Prop :=
  Text.lower_cp h = [c] \/ (c = 95%N /\ h = 32%N).

Inductive body_variant : text -> text -> Prop :=
| body_nil : body_variant [] []
| body_cons (c h : N) (r b : text) :
    char_variant c h -> body_variant r b ->
    body_variant (c :: r) (h :: b).

Definition blank (s : text) : bool := forallb Text.isspace s.

Definition variant (r : string) (h : text) : Prop :=
  exists pre body post : text,
    h = pre ++ body ++ post /\
    blank pre = true /\ blank post = true /\ body_variant (codes r) body.

(** [mentions msg name]: the text [name] occurs in [msg]. *)
Definition mentions (msg name : string) : bool :=
  match String.index 0 name msg with
  | Some _ => true
  | None => false
  end.

Section PageOf.

Context {N : Numbers}.

(** What a run put on the page. *)
Definition is_error (e : event) : bool :=
  match e with st_error _ => true | _ => false end.

Definition is_chart (e : event) : bool :=
  match e with st_plotly_chart _ => true | _ => false end.

Definition page_of {A : Type} (m : M A) : list event := snd (m []).

Definition result_of {A : Type} (m : M A) : outcome A := fst (m []).

End PageOf.

(** * Properties *)

(** ** Headers *)

(** A code point that [str.lower] leaves alone wherever it stands. *)
Definition stable (d : N) : bool :=
  negb (N.eqb d 931) && negb (N.eqb d 304) &&
  match Text.assoc d Text.lowercase with None => true | Some _ => false end.

Lemma lowercase_images :
  forallb (fun p => stable (snd p) && negb (Text.isspace (snd p)))
          Text.lowercase = true.
Proof. vm_compute. reflexivity. Qed.

Lemma whitespace_stable : forallb stable Text.whitespace = true.
Proof. vm_compute. reflexivity. Qed.

Lemma assoc_In (c d : N) (table : list (N * N)) :
  Text.assoc c table = Some d -> In (c, d) table.
Proof.
  induction table as [|[k e] table IH]; simpl; [discriminate|].
  destruct (N.eqb_spec c k) as [-> | _].
  - intros H. injection H as ->. now left.
  - intros H. right. now apply IH.
Qed.

Lemma isspace_stable (c : N) : Text.isspace c = true -> stable c = true.
Proof.
  unfold Text.isspace. rewrite existsb_exists. intros (w & I & E).
  apply N.eqb_eq in E. subst w.
  pose proof whitespace_stable as H. rewrite forallb_forall in H. now apply H.
Qed.

(** The image of a code point: never empty, made of stable code points,
    and free of white space when the code point is no white space. *)
Lemma lower_cp_image (c : N) :
  Text.lower_cp c <> [] /\
  Forall (fun d => stable d = true /\
                   (Text.isspace c = false -> Text.isspace d = false))
         (Text.lower_cp c).
Proof.
  unfold Text.lower_cp. destruct (N.eqb_spec c 304) as [-> | N304].
  - split; [discriminate|]. repeat constructor.
  - destruct (Text.assoc c Text.lowercase) as [d|] eqn:E.
    + split; [discriminate|]. constructor; [|constructor].
      apply assoc_In in E. pose proof lowercase_images as H.
      rewrite forallb_forall in H. specialize (H _ E). simpl in H.
      apply andb_true_iff in H as [H1 H2]. apply negb_true_iff in H2. auto.
    + split; [discriminate|]. constructor; [|constructor]. split; [|auto].
      unfold stable. rewrite E.
      destruct (N.eqb_spec c 931) as [-> | _]; [discriminate|].
      destruct (N.eqb_spec c 304); [contradiction | reflexivity].
Qed.

Lemma stable_lower_cp (d : N) : stable d = true -> Text.lower_cp d = [d].
Proof.
  unfold stable, Text.lower_cp. intros H.
  apply andb_true_iff in H as [H H3]. apply andb_true_iff in H as [_ H2].
  apply negb_true_iff in H2. rewrite H2.
  now destruct (Text.assoc d Text.lowercase).
Qed.

Section HeaderFacts.

Context {U : Unicode}.

Lemma lower_from_stable (before s : text) :
  Forall (fun d => stable d = true) (lower_from before s).
Proof.
  revert before. induction s as [|c s IH]; intros before; simpl; [constructor|].
  apply Forall_app. split; [|apply IH].
  destruct (N.eqb c 931).
  - constructor; [|constructor]. now destruct (final_sigma before s).
  - eapply Forall_impl; [|exact (proj2 (lower_cp_image c))]. now intros d [H _].
Qed.

Lemma lower_from_fixed (before s : text) :
  Forall (fun d => stable d = true) s -> lower_from before s = s.
Proof.
  revert before. induction s as [|c s IH]; intros before H; [reflexivity|].
  inversion_clear H as [|? ? Hc Hs]. simpl.
  assert (N.eqb c 931 = false) as E.
  { unfold stable in Hc. apply andb_true_iff in Hc as [Hc _].
    apply andb_true_iff in Hc as [Hc _]. now apply negb_true_iff in Hc. }
  now rewrite E, (stable_lower_cp c Hc), (IH _ Hs).
Qed.

Lemma lower_from_nil (before s : text) : lower_from before s = [] -> s = [].
Proof.
  destruct s as [|c s]; [reflexivity|]. simpl. intros H.
  apply app_eq_nil in H as [H _].
  destruct (N.eqb c 931); [discriminate|].
  now destruct (proj1 (lower_cp_image c)).
Qed.

(** The image of a code point that is no white space, in its place. *)
Lemma image_no_space (before after : text) (c : N) :
  Text.isspace c = false ->
  let image := if N.eqb c 931
               then [if final_sigma before after then 962%N else 963%N]
               else Text.lower_cp c in
  image <> [] /\ Forall (fun d => Text.isspace d = false) image.
Proof.
  intros Hc image. subst image. destruct (N.eqb c 931).
  - split; [discriminate|]. constructor; [|constructor].
    now destruct (final_sigma before after).
  - destruct (lower_cp_image c) as [Hn Hf]. split; [exact Hn|].
    eapply Forall_impl; [|exact Hf]. intros d [_ H]. now apply H.
Qed.

End HeaderFacts.

(** *** Stripped strings *)

(** A string with no white space at either end. *)
Definition stripped (s : text) : Prop :=
  Text.lstrip s = s /\ Text.rstrip s = s.

Lemma lstrip_head (s : text) :
  Text.lstrip s = [] \/
  exists c t, Text.lstrip s = c :: t /\ Text.isspace c = false.
Proof.
  induction s as [|c s IH]; simpl; [now left|].
  destruct (Text.isspace c) eqn:E; [exact IH|].
  right. now exists c, s.
Qed.

Lemma rstrip_idem (s : text) : Text.rstrip (Text.rstrip s) = Text.rstrip s.
Proof.
  induction s as [|c s IH]; simpl; [reflexivity|].
  destruct (Text.rstrip s) as [|d r] eqn:E.
  - destruct (Text.isspace c) eqn:Ec; simpl; [reflexivity|]. now rewrite Ec.
  - change (Text.rstrip (c :: d :: r)) with
      (match Text.rstrip (d :: r) with
       | [] => if Text.isspace c then [] else [c]
       | r' => c :: r'
       end).
    now rewrite IH.
Qed.

Lemma rstrip_head (c : N) (s : text) :
  Text.isspace c = false -> exists t, Text.rstrip (c :: s) = c :: t.
Proof.
  intros E. simpl. destruct (Text.rstrip s) as [|d r].
  - rewrite E. now exists [].
  - now exists (d :: r).
Qed.

Lemma strip_stripped (s : text) : stripped (Text.strip s).
Proof.
  unfold stripped, Text.strip. split; [|apply rstrip_idem].
  destruct (lstrip_head s) as [E | (c & t & E & Ec)]; rewrite E.
  - reflexivity.
  - destruct (rstrip_head c t Ec) as [t' E']. rewrite E'. simpl. now rewrite Ec.
Qed.

Lemma stripped_strip (s : text) : stripped s -> Text.strip s = s.
Proof. intros [L R]. unfold Text.strip. now rewrite L. Qed.

Lemma lstrip_length (s : text) :
  List.length (Text.lstrip s) <= List.length s.
Proof.
  induction s as [|c s IH]; simpl; [lia|].
  destruct (Text.isspace c); simpl; lia.
Qed.

Lemma lstrip_fixed (c : N) (s : text) :
  Text.lstrip (c :: s) = c :: s -> Text.isspace c = false.
Proof.
  simpl. destruct (Text.isspace c); [|reflexivity].
  intros E. pose proof (lstrip_length s) as L. rewrite E in L. simpl in L. lia.
Qed.

Lemma rstrip_no_space (s : text) :
  Forall (fun d => Text.isspace d = false) s -> Text.rstrip s = s.
Proof.
  induction 1 as [|c s Hc _ IH]; simpl; [reflexivity|].
  rewrite IH. destruct s; [now rewrite Hc | reflexivity].
Qed.

Lemma rstrip_app (s t : text) :
  t <> [] -> Text.rstrip t = t -> Text.rstrip (s ++ t) = s ++ t.
Proof.
  intros Hn Ht. induction s as [|c s IH]; simpl; [exact Ht|].
  rewrite IH. destruct (s ++ t) eqn:E; [|reflexivity].
  apply app_eq_nil in E as [_ E]. contradiction.
Qed.

Lemma stripped_map (f : N -> N) (s : text) :
  (forall c, Text.isspace c = false -> Text.isspace (f c) = false) ->
  stripped s -> stripped (map f s).
Proof.
  intros Hf [L R]. split.
  - destruct s as [|c s]; [reflexivity|].
    apply lstrip_fixed in L. simpl. now rewrite (Hf c L).
  - clear L. induction s as [|c s IH]; [reflexivity|].
    simpl in R. simpl.
    destruct (Text.rstrip s) as [|d r] eqn:E.
    + destruct (Text.isspace c) eqn:Ec; [discriminate|].
      injection R as R. subst s. simpl. now rewrite (Hf c Ec).
    + injection R as R. rewrite (IH R).
      destruct (map f s) eqn:M; [|reflexivity].
      apply map_eq_nil in M. subst s. discriminate.
Qed.

Lemma underscore_no_space (c : N) :
  Text.isspace c = false ->
  Text.isspace (if N.eqb c 32 then 95%N else c) = false.
Proof. intros H. destruct (N.eqb c 32); [reflexivity | exact H]. Qed.

Section Normalize.

Context {U : Unicode}.

Lemma stripped_lower_from (before s : text) :
  stripped s -> stripped (lower_from before s).
Proof.
  intros [L R]. split.
  - destruct s as [|c s]; [reflexivity|].
    apply lstrip_fixed in L. simpl.
    destruct (image_no_space before s c L) as [Hn Hf]. cbv zeta in Hn, Hf.
    destruct (if N.eqb c 931 then _ else _) as [|d image]; [contradiction|].
    inversion_clear Hf as [|? ? Hd _]. simpl. now rewrite Hd.
  - clear L. revert before. induction s as [|c s IH]; intros before; [reflexivity|].
    simpl in R. simpl.
    destruct (Text.rstrip s) as [|d r] eqn:E.
    + destruct (Text.isspace c) eqn:Ec; [discriminate|].
      injection R as R. subst s. simpl. rewrite app_nil_r.
      apply rstrip_no_space. exact (proj2 (image_no_space before [] c Ec)).
    + injection R as R. apply rstrip_app; [|now apply IH].
      intros H. apply lower_from_nil in H. subst s. discriminate.
Qed.

(** C10: normalising a header twice gives what normalising it once gives. *)
Theorem normalize_idempotent (c : text) :
  normalize (normalize c) = normalize c.
Proof.
  unfold normalize at 1.
  assert (stripped (normalize c)) as Hs.
  { unfold normalize, Text.replace. apply stripped_map.
    - exact underscore_no_space.
    - apply stripped_lower_from, strip_stripped. }
  assert (Forall (fun d => stable d = true) (normalize c)) as Hl.
  { unfold normalize, Text.replace, lower. apply Forall_map.
    eapply Forall_impl; [|apply lower_from_stable].
    intros d H. now destruct (N.eqb d 32). }
  rewrite (stripped_strip _ Hs). unfold lower. rewrite (lower_from_fixed _ _ Hl).
  unfold normalize, Text.replace. rewrite List.map_map.
  apply map_ext. intros d. destruct (N.eqb_spec d 32) as [-> | H]; [reflexivity|].
  apply N.eqb_neq in H. now rewrite H.
Qed.

End Normalize.

(** *** Variants of the required names *)

Definition letter (c : N) : bool := ((97 <=? c) && (c <=? 122))%N.

Definition plain_name (s : text) : bool :=
  forallb (fun c => (c <? 128)%N && negb (N.eqb c 32)) s.

Definition first_letter (s : text) : bool :=
  match s with
  | [] => false
  | c :: _ => letter c
  end.

Fixpoint last_letter (s : text) : bool :=
  match s with
  | [] => false
  | [c] => letter c
  | _ :: s' => last_letter s'
  end.

Lemma letter_no_space (c : N) : letter c = true -> Text.isspace c = false.
Proof.
  intros L. destruct (Text.isspace c) eqn:E; [|reflexivity].
  unfold Text.isspace in E. apply existsb_exists in E as (w & I & E).
  apply N.eqb_eq in E. subst w. simpl in I.
  repeat (destruct I as [<- | I]; [discriminate L|]). destruct I.
Qed.

Lemma char_variant_letter (c h : N) :
  char_variant c h -> letter c = true -> Text.isspace h = false.
Proof.
  intros [E | [-> _]] L; [|discriminate].
  destruct (Text.isspace h) eqn:Eh; [|reflexivity].
  rewrite (stable_lower_cp h (isspace_stable h Eh)) in E. injection E as ->.
  now rewrite (letter_no_space c L) in Eh.
Qed.

Lemma char_variant_sigma (c h : N) :
  char_variant c h -> (c <? 128)%N = true -> N.eqb h 931 = false.
Proof.
  intros [E | [_ ->]] L; [|reflexivity].
  destruct (N.eqb_spec h 931) as [-> | _]; [|reflexivity].
  vm_compute in E. injection E as <-. discriminate.
Qed.

Lemma blank_lstrip (pre s : text) :
  blank pre = true -> Text.lstrip (pre ++ s) = Text.lstrip s.
Proof.
  induction pre as [|c pre IH]; simpl; [reflexivity|].
  intros B. apply andb_true_iff in B as [B1 B2]. now rewrite B1, IH.
Qed.

Lemma blank_rstrip (post : text) :
  blank post = true -> Text.rstrip post = [].
Proof.
  induction post as [|c post IH]; simpl; [reflexivity|].
  intros B. apply andb_true_iff in B as [B1 B2]. now rewrite (IH B2), B1.
Qed.

Lemma rstrip_app_blank (s post : text) :
  blank post = true -> Text.rstrip (s ++ post) = Text.rstrip s.
Proof.
  intros B. induction s as [|c s IH]; simpl; [now apply blank_rstrip|].
  now rewrite IH.
Qed.

Lemma lstrip_app (s t : text) :
  s <> [] -> Text.lstrip s = s -> Text.lstrip (s ++ t) = s ++ t.
Proof.
  destruct s as [|c s]; [congruence|]. intros _ L.
  apply lstrip_fixed in L. simpl. now rewrite L.
Qed.

Lemma body_variant_lstrip (r b : text) :
  body_variant r b -> first_letter r = true -> Text.lstrip b = b.
Proof.
  destruct 1 as [|c h r b V _]; simpl; [reflexivity|].
  intros L. now rewrite (char_variant_letter c h V L).
Qed.

Lemma body_variant_rstrip (r b : text) :
  body_variant r b -> last_letter r = true -> Text.rstrip b = b.
Proof.
  induction 1 as [|c h r b V B IH]; [reflexivity|].
  intros L. simpl. destruct B as [|c' h' r' b' V' B'].
  - simpl. now rewrite (char_variant_letter c h V L).
  - rewrite (IH L). reflexivity.
Qed.

Section Variants.

Context {U : Unicode}.

Lemma body_variant_norm (r b before : text) :
  body_variant r b -> plain_name r = true ->
  Text.replace 32 95 (lower_from before b) = r.
Proof.
  intros V. revert before.
  induction V as [|c h r b V _ IH]; intros before; simpl; [reflexivity|].
  intros P. apply andb_true_iff in P as [P1 P2].
  apply andb_true_iff in P1 as [Pa Ps]. apply negb_true_iff in Ps.
  rewrite (char_variant_sigma c h V Pa).
  unfold Text.replace in *. rewrite map_app, (IH _ P2).
  destruct V as [E | [-> ->]].
  - rewrite E. simpl. now rewrite Ps.
  - reflexivity.
Qed.

Lemma variant_normalize (r : string) (h : text) :
  plain_name (codes r) = true -> first_letter (codes r) = true ->
  last_letter (codes r) = true ->
  variant r h -> normalize h = codes r.
Proof.
  intros P F L (pre & body & post & -> & Bpre & Bpost & V).
  unfold normalize, Text.strip, lower.
  rewrite (blank_lstrip _ _ Bpre).
  rewrite lstrip_app.
  - rewrite (rstrip_app_blank _ _ Bpost), (body_variant_rstrip _ body V L).
    now apply body_variant_norm.
  - destruct V; [discriminate F | discriminate].
  - now apply (body_variant_lstrip (codes r)).
Qed.

Lemma required_variant (r : string) (h : text) :
  In r required_columns -> variant r h -> normalize h = codes r.
Proof.
  intros I. apply variant_normalize;
    simpl in I; repeat (destruct I as [<- | I]; [reflexivity|]); destruct I.
Qed.

End Variants.

Lemma text_eqb_eq (s t : text) : Text.eqb s t = true <-> s = t.
Proof.
  revert t. induction s as [|c s IH]; intros [|d t]; simpl;
    try (split; [discriminate | discriminate]); [tauto|].
  rewrite andb_true_iff, N.eqb_eq, IH. split.
  - intros [-> ->]. reflexivity.
  - intros H. injection H as -> ->. auto.
Qed.

Lemma text_eqb_refl (s : text) : Text.eqb s s = true.
Proof. now apply text_eqb_eq. Qed.

Lemma columns_rename (f : text -> text) (df : DataFrame) :
  columns (rename f df) = map f (columns df).
Proof. unfold columns, rename. rewrite !List.map_map. reflexivity. Qed.

Lemma has_column_In {A : Type} (df : list (text * A)) (col : string) :
  has_column df col = true <-> In (codes col) (columns df).
Proof.
  unfold has_column. rewrite existsb_exists. split.
  - intros (x & I & E). apply text_eqb_eq in E. now subst.
  - intros I. exists (codes col). split; [exact I | apply text_eqb_refl].
Qed.

(** C6: renaming the headers always goes through and renames every one of
    them, and when each of the six required names is there in some
    letter-case or spacing variant, the check of the required columns
    succeeds on the renamed frame. *)
Theorem normalize_then_validate {U : Unicode} (df : DataFrame) :
  (forall r, In r required_columns ->
             exists h, In h (columns df) /\ variant r h) ->
  columns (rename normalize df) = map normalize (columns df) /\
  schema_ok (rename normalize df) = true.
Proof.
  intros H. split; [apply columns_rename|].
  unfold schema_ok. apply forallb_forall. intros r I.
  apply has_column_In. rewrite columns_rename.
  destruct (H r I) as (h & Ih & V).
  rewrite <- (required_variant r h I V). now apply in_map.
Qed.

(** A file whose headers are the given ones and that has no row. *)
Definition headers_only (names : list string) : DataFrame :=
  map (fun h => (codes h, [])) names.

Ltac variant_parts :=
  split; [reflexivity|]; split; [reflexivity|]; split; [reflexivity|];
  repeat (constructor;
          [first [left; reflexivity | right; split; reflexivity]|]);
  constructor.

Lemma normalize_then_validate_witness :
  schema_ok (rename (normalize (U := no_sigma)) (headers_only
    [" Date"; "PLATFORM  "; "Sentiment"; "location"; "ENGAGEMENTS"; "Media Type"]))
  = true.
Proof.
  apply (normalize_then_validate (U := no_sigma) (headers_only
    [" Date"; "PLATFORM  "; "Sentiment"; "location"; "ENGAGEMENTS"; "Media Type"])).
  intros r I. simpl in I.
  destruct I as [<- | [<- | [<- | [<- | [<- | [<- | []]]]]]].
  - exists (codes " Date"). split; [simpl; tauto|].
    exists (codes " "), (codes "Date"), []. variant_parts.
  - exists (codes "PLATFORM  "). split; [simpl; tauto|].
    exists [], (codes "PLATFORM"), (codes "  "). variant_parts.
  - exists (codes "Sentiment"). split; [simpl; tauto|].
    exists [], (codes "Sentiment"), []. variant_parts.
  - exists (codes "location"). split; [simpl; tauto|].
    exists [], (codes "location"), []. variant_parts.
  - exists (codes "ENGAGEMENTS"). split; [simpl; tauto|].
    exists [], (codes "ENGAGEMENTS"), []. variant_parts.
  - exists (codes "Media Type"). split; [simpl; tauto|].
    exists [], (codes "Media Type"), []. variant_parts.
Defined.

(** ** Numbers: the reference instances *)

Lemma wrap_add (a b : Z) : wrap (wrap a + b) = wrap (a + b).
Proof.
  unfold wrap. f_equal.
  replace ((a + 2 ^ 63) mod 2 ^ 64 - 2 ^ 63 + b + 2 ^ 63)%Z
    with ((a + 2 ^ 63) mod 2 ^ 64 + b)%Z by lia.
  rewrite Z.add_mod_idemp_l by lia. f_equal. lia.
Qed.

Lemma wrap_small (a : Z) : (Z.abs a <= 2 ^ 53)%Z -> wrap a = a.
Proof. intros H. unfold wrap. rewrite Z.mod_small; lia. Qed.

Lemma wrapping_fold (zs : list Z) (acc : Z) :
  fold_left (fun a b => wrap (a + b)) (map wrap zs) (wrap acc) =
  wrap (acc + total zs).
Proof.
  revert acc. induction zs as [|z zs IH]; intros acc; simpl.
  - f_equal. lia.
  - rewrite wrap_add, Z.add_comm, wrap_add, IH. f_equal. lia.
Qed.

Lemma wrapping_sum_wrap (zs : list Z) :
  wrapping_sum (map wrap zs) = wrap (total zs).
Proof.
  unfold wrapping_sum. change 0%Z with (wrap 0) at 1.
  now rewrite wrapping_fold.
Qed.

Lemma Z_leb_total (a b : Z) : (a <=? b)%Z = true \/ (b <=? a)%Z = true.
Proof. rewrite !Z.leb_le. lia. Qed.

Lemma Z_leb_trans (a b c : Z) :
  (a <=? b)%Z = true -> (b <=? c)%Z = true -> (a <=? c)%Z = true.
Proof. rewrite !Z.leb_le. lia. Qed.

(** The integers, with exact sums. *)
Definition exact : Numbers :=
  {| num := Z;
     of_Z := fun z => z;
     sum := total;
     leb := Z.leb;
     leb_total := Z_leb_total;
     leb_trans := Z_leb_trans;
     sum_exact := fun zs _ => f_equal total (map_id zs);
     leb_exact := fun a b _ _ => eq_refl |}.

Lemma int64_leb_exact (a b : Z) :
  (Z.abs a <= 2 ^ 53)%Z -> (Z.abs b <= 2 ^ 53)%Z ->
  (wrap a <=? wrap b)%Z = (a <=? b)%Z.
Proof. intros Ha Hb. now rewrite (wrap_small a Ha), (wrap_small b Hb). Qed.

(** The numbers of an [int64] column: sums wrap around. *)
Definition int64 : Numbers :=
  {| num := Z;
     of_Z := wrap;
     sum := wrapping_sum;
     leb := Z.leb;
     leb_total := Z_leb_total;
     leb_trans := Z_leb_trans;
     sum_exact := fun zs _ => wrapping_sum_wrap zs;
     leb_exact := int64_leb_exact |}.

Example int64_overflow :
  sum (Numbers := int64) [9223372036854775807; 1]%Z = (-9223372036854775808)%Z.
Proof. reflexivity. Qed.

(** ** The sort: a reference instance *)

Section InsertionFacts.

Context {K V : Type} (le : V -> V -> bool).

Hypothesis le_total : forall a b, le a b = true \/ le b a = true.
Hypothesis le_trans : forall a b c, le a b = true -> le b c = true -> le a c = true.

Lemma insert_perm (x : K * V) (l : list (K * V)) :
  Permutation (x :: l) (insert le x l).
Proof.
  induction l as [|y l IH]; simpl; [reflexivity|].
  destruct (le (snd y) (snd x)); [reflexivity|].
  rewrite perm_swap. now constructor.
Qed.

Lemma insert_sorted (x : K * V) (l : list (K * V)) :
  StronglySorted (descending_by le) l ->
  StronglySorted (descending_by le) (insert le x l).
Proof.
  induction l as [|y l IH]; simpl; intros H; [repeat constructor|].
  inversion_clear H as [|? ? Hs Hf].
  destruct (le (snd y) (snd x)) eqn:E.
  - constructor; [now constructor|]. constructor; [exact E|].
    eapply Forall_impl; [|exact Hf]. unfold descending_by. intros z Hz.
    now apply (le_trans _ (snd y)).
  - constructor; [now apply IH|].
    apply (Permutation_Forall (insert_perm x l)). constructor; [|exact Hf].
    unfold descending_by. destruct (le_total (snd x) (snd y)); congruence.
Qed.

Lemma insertion_sort_perm (l : list (K * V)) :
  Permutation l (insertion_sort le l).
Proof.
  induction l as [|x l IH]; simpl; [reflexivity|].
  rewrite <- insert_perm. now constructor.
Qed.

Lemma insertion_sort_sorted (l : list (K * V)) :
  StronglySorted (descending_by le) (insertion_sort le l).
Proof.
  induction l as [|x l IH]; simpl; [constructor | now apply insert_sorted].
Qed.

End InsertionFacts.

(** A sort that [sort_values] may be: a row goes before the rows it ties
    with. *)
Definition keeping_ties : SortValues :=
  {| sort_values := fun K V le => insertion_sort le;
     sort_values_perm := fun K V le => insertion_sort_perm le;
     sort_values_sorted := fun K V le l Ht Hr =>
       insertion_sort_sorted le Ht Hr l |}.

(** ** The cleaning run *)

(** What the cleaning run shows before it ends. *)
Definition uploaded {N : Numbers} (u : upload) : list event :=
  match u with
  | table _ => [st_success "CSV file uploaded successfully! Processing data..."]
  | _ => []
  end.

Definition cleaned {N : Numbers} (df : Dataset) : list event :=
  [st_success "Data successfully cleaned and prepared for analysis!";
   st_dataframe (head_rows df)].

Section Cleaning.

Context {U : Unicode} {N : Numbers} {P : Parsers}.

(** Where one upload ends: turned down with one of the errors, or ready
    with the cleaned frame. *)
Definition pipeline (u : upload) : error + Dataset :=
  match u with
  | no_columns => inl EmptyInputError
  | malformed => inl MalformedTableError
  | unreadable e => inl (UnexpectedError e)
  | table df =>
      let df := rename normalize df in
      if schema_ok df then
        match getitem df "date" with
        | OneColumn s =>
            match to_datetime_series s with
            | Some ts =>
                match getitem df "engagements" with
                | OneColumn e =>
                    inr (cleaned_frame df ts (fillna (map (to_numeric_cell e) e)))
                | SubFrame _ =>
                    inl (UnexpectedError
                           "arg must be a list, tuple, 1-d array, or Series")
                | NoColumn => inl (UnexpectedError "'engagements'")
                end
            | None => inl DateCoercionError
            end
        | _ => inl DateCoercionError
        end
      else inl SchemaError
  end.

Lemma coerceDate_run (df : DataFrame) (page : list event) :
  coerceDate df page =
  match getitem df "date" with
  | OneColumn s =>
      match to_datetime_series s with
      | Some ts => (Return (Some ts), page)
      | None => (Return None, page ++ [st_error (message DateCoercionError)])
      end
  | _ => (Return None, page ++ [st_error (message DateCoercionError)])
  end.
Proof.
  unfold coerceDate, try_except, bind, to_datetime.
  destruct (getitem df "date") as [| s | cols]; try reflexivity.
  destruct (to_datetime_series s); reflexivity.
Qed.

Lemma repairEngagements_run (df : DataFrame) (page : list event) :
  repairEngagements df page =
  match getitem df "engagements" with
  | OneColumn s => (Return (fillna (map (to_numeric_cell s) s)), page)
  | SubFrame _ =>
      (Raise (Exception "arg must be a list, tuple, 1-d array, or Series"), page)
  | NoColumn => (Raise (Exception "'engagements'"), page)
  end.
Proof.
  unfold repairEngagements, bind, to_numeric.
  destruct (getitem df "engagements"); reflexivity.
Qed.

(** The script's cleaning run ends where [pipeline] says, with one message
    for an upload that is turned down. *)
Lemma load_pipeline (u : upload) (page : list event) :
  load (Some u) page =
  match pipeline u with
  | inl e => (Return None, page ++ uploaded u ++ [st_error (message e)])
  | inr df => (Return (Some df), page ++ uploaded u ++ cleaned df)
  end.
Proof.
  destruct u as [| | e | df]; try reflexivity.
  unfold load, try_except, process, bind at 1 2, read_csv, ret, show, pipeline.
  cbv zeta.
  destruct (schema_ok (rename normalize df)); cbn [negb].
  2: { unfold bind, show, ret, uploaded. now rewrite <- app_assoc. }
  unfold bind at 1. rewrite coerceDate_run.
  destruct (getitem (rename normalize df) "date") as [| s | cols].
  - unfold ret, handler, uploaded. now rewrite <- app_assoc.
  - destruct (to_datetime_series s) as [ts|].
    + unfold bind at 1. rewrite repairEngagements_run.
      destruct (getitem (rename normalize df) "engagements").
      * unfold handler, bind, show, ret, uploaded. now rewrite <- app_assoc.
      * unfold bind, show, ret, uploaded, cleaned.
        now rewrite <- !app_assoc.
      * unfold handler, bind, show, ret, uploaded. now rewrite <- app_assoc.
    + unfold ret, handler, uploaded. now rewrite <- app_assoc.
  - unfold ret, handler, uploaded. now rewrite <- app_assoc.
Qed.

End Cleaning.

(** ** The check of the required columns *)

Lemma filter_negb_nil {A : Type} (f : A -> bool) (l : list A) :
  filter (fun x => negb (f x)) l = [] <-> forallb f l = true.
Proof.
  induction l as [|x l IH]; simpl; [tauto|].
  destruct (f x); simpl; [exact IH|]. split; discriminate.
Qed.

Lemma missing_columns_schema (df : DataFrame) :
  missing_columns df <> [] <-> schema_ok df = false.
Proof.
  unfold missing_columns, schema_ok. rewrite filter_negb_nil.
  destruct (forallb (has_column df) required_columns); split; congruence.
Qed.

Definition no_location : DataFrame :=
  headers_only ["Date"; "Platform"; "Sentiment"; "Engagements"; "Media Type"].

(** C3, as the code has it: when the renamed headers lack at least one of
    the six required columns the upload is turned down with one error
    message and no frame, and the message names all six required columns,
    each capitalized, whichever of them are missing. *)
Theorem schema_error_names_all_required
  {U : Unicode} {N : Numbers} {P : Parsers} (df : DataFrame) (page : list event) :
  missing_columns (rename normalize df) <> [] ->
  load (Some (table df)) page =
    (Return None,
     page ++ [st_success "CSV file uploaded successfully! Processing data...";
              st_error (message SchemaError)]) /\
  message SchemaError =
    columns_message
      ["Date"; "Platform"; "Sentiment"; "Location"; "Engagements"; "Media_type"].
Proof.
  intros H. apply missing_columns_schema in H. split; [|reflexivity].
  rewrite load_pipeline. unfold pipeline. cbv zeta. rewrite H. reflexivity.
Qed.

Lemma schema_error_names_all_required_witness :
  load (U := no_sigma) (N := exact) (P := plain) (Some (table no_location)) [] =
    (Return None,
     [st_success "CSV file uploaded successfully! Processing data...";
      st_error (message SchemaError)]).
Proof.
  apply (schema_error_names_all_required
           (U := no_sigma) (N := exact) (P := plain) no_location []).
  vm_compute. discriminate.
Defined.

(** C3, as the spec has it, fails: with only [location] missing the message
    is not the one that lists just the missing column, and it names
    [Date], a column that is there. *)
Lemma schema_error_not_only_missing :
  missing_columns (rename (normalize (U := no_sigma)) no_location) = ["location"] /\
  page_of (load (U := no_sigma) (N := exact) (P := plain)
             (Some (table no_location))) =
    [st_success "CSV file uploaded successfully! Processing data...";
     st_error (message SchemaError)] /\
  message SchemaError <>
    columns_message
      (map Str.capitalize
         (missing_columns (rename (normalize (U := no_sigma)) no_location))) /\
  has_column (rename (normalize (U := no_sigma)) no_location) "date" = true /\
  mentions (message SchemaError) "Date" = true.
Proof.
  repeat split; try reflexivity.
  vm_compute. discriminate.
Qed.

(** ** The date column *)

(** A field of the date column converts: it is missing, and becomes the
    missing instant, or its text reads as an instant in that column. *)
Definition parseable {N : Numbers} {P : Parsers} (s : Series) (c : cell) : Prop :=
  match c with
  | None => True
  | Some text => exists t, parse_datetime s text = Some t
  end.

Definition unparseable {N : Numbers} {P : Parsers} (s : Series) (c : cell) : Prop :=
  exists text, c = Some text /\ parse_datetime s text = None.

(** Three rows of a campaign. *)
Definition campaign (dates engagements : Series) : DataFrame :=
  [(codes "Date", dates);
   (codes "Platform", [Some "Instagram"; Some "TikTok"; Some "Instagram"]);
   (codes "Sentiment", [Some "positive"; Some "neutral"; Some "positive"]);
   (codes "Location", [Some "Jakarta"; Some "Bandung"; Some "Jakarta"]);
   (codes "Engagements", engagements);
   (codes "Media Type", [Some "video"; Some "image"; Some "video"])].

Definition march : Series :=
  [Some "2024-03-11"; Some "2024-03-12"; Some "2024-03-13"].

Definition march_broken : Series :=
  [Some "2024-03-11"; Some "not-a-date"; Some "2024-03-13"].

Definition march_gap : Series :=
  [Some "2024-03-11"; None; Some "2024-03-13"].

Definition counts : Series := [Some "120"; Some "45"; Some "30"].

Lemma convert_all_Forall2 {A B : Type} (f : A -> option B) (l : list A) (bs : list B) :
  convert_all f l = Some bs <-> Forall2 (fun a b => f a = Some b) l bs.
Proof.
  revert bs. induction l as [|a l IH]; intros bs; simpl.
  - split; [intros H; injection H as <-; constructor | now inversion 1].
  - destruct (f a) as [b|] eqn:E.
    + destruct (convert_all f l) as [bs'|].
      * split.
        -- intros H. injection H as <-. constructor; [exact E | now apply IH].
        -- inversion 1 as [|? b' ? bs'' Hb Hl]; subst.
           rewrite E in Hb. injection Hb as <-.
           apply IH in Hl. now injection Hl as <-.
      * split; [discriminate|]. inversion 1 as [|? ? ? bs'' _ Hl]; subst.
        apply IH in Hl. discriminate.
    + split; [discriminate|]. inversion 1; subst. congruence.
Qed.

Lemma convert_all_None {A B : Type} (f : A -> option B) (l : list A) :
  Exists (fun a => f a = None) l -> convert_all f l = None.
Proof.
  induction 1 as [a l E | a l _ IH]; simpl.
  - now rewrite E.
  - rewrite IH. now destruct (f a).
Qed.

Section Dates.

Context {U : Unicode} {N : Numbers} {P : Parsers}.

Lemma to_datetime_series_all (s : Series) :
  Forall (parseable s) s ->
  exists ts, to_datetime_series s = Some ts /\
             Forall2 (fun c t => to_datetime_cell s c = Some t) s ts.
Proof.
  unfold to_datetime_series. generalize s at 1 3 5 as ctx. intros ctx.
  induction 1 as [|c l Hc _ (ts & E & F)].
  - exists []. split; [reflexivity | constructor].
  - assert (exists t, to_datetime_cell ctx c = Some t) as [t Et].
    { destruct c as [text|]; simpl in *; [|now exists None].
      destruct Hc as [t Ht]. rewrite Ht. now exists (Some t). }
    exists (t :: ts). simpl. rewrite Et, E. split; [reflexivity | now constructor].
Qed.

Lemma to_datetime_series_some (s : Series) :
  Exists (unparseable s) s -> to_datetime_series s = None.
Proof.
  intros H. apply convert_all_None. eapply Exists_impl; [|exact H].
  intros c (text & -> & E). simpl. now rewrite E.
Qed.

(** C1, as the code has it: on a frame whose renamed headers hold [date]
    once, when every field of the column that is there converts, the
    conversion succeeds, with one instant per row and the missing instant
    for a missing field; when some field that is there does not convert,
    the conversion fails for the whole frame, with the date error, and
    the upload ends with no frame. *)
Theorem date_all_or_nothing (df : DataFrame) (col : Series) (page : list event) :
  schema_ok (rename normalize df) = true ->
  getitem (rename normalize df) "date" = OneColumn col ->
  (Forall (parseable col) col ->
   exists ts,
     coerceDate (rename normalize df) page = (Return (Some ts), page) /\
     List.length ts = List.length col /\
     Forall2 (fun c t => to_datetime_cell col c = Some t) col ts) /\
  (Exists (unparseable col) col ->
   coerceDate (rename normalize df) page =
     (Return None, page ++ [st_error (message DateCoercionError)]) /\
   load (Some (table df)) page =
     (Return None,
      page ++ [st_success "CSV file uploaded successfully! Processing data...";
               st_error (message DateCoercionError)])).
Proof.
  intros Hs Hd. split.
  - intros H. destruct (to_datetime_series_all col H) as (ts & E & F).
    exists ts. rewrite coerceDate_run, Hd, E.
    repeat split; [|exact F]. symmetry. exact (Forall2_length F).
  - intros H. apply to_datetime_series_some in H.
    rewrite coerceDate_run, load_pipeline. unfold pipeline. cbv zeta.
    rewrite Hs, Hd, H. split; reflexivity.
Qed.

End Dates.

Lemma date_all_or_nothing_witness :
  (exists ts,
     coerceDate (N := exact) (P := plain)
       (rename (normalize (U := no_sigma)) (campaign march counts)) [] =
       (Return (Some ts), []) /\ List.length ts = 3) /\
  load (U := no_sigma) (N := exact) (P := plain)
    (Some (table (campaign march_broken counts))) [] =
    (Return None,
     [st_success "CSV file uploaded successfully! Processing data...";
      st_error (message DateCoercionError)]).
Proof.
  split.
  - destruct (date_all_or_nothing (U := no_sigma) (N := exact) (P := plain)
                (campaign march counts) march [] eq_refl eq_refl) as [H _].
    destruct H as (ts & E & L & _).
    + repeat constructor; simpl; eexists; vm_compute; reflexivity.
    + exists ts. split; [exact E | exact L].
  - destruct (date_all_or_nothing (U := no_sigma) (N := exact) (P := plain)
                (campaign march_broken counts) march_broken [] eq_refl eq_refl)
      as [_ H].
    apply H. apply Exists_cons_tl, Exists_cons_hd.
    exists "not-a-date". split; reflexivity.
Defined.

(** C1, as the spec has it, fails.  A row whose date field is empty holds
    no date that parses, and the frame is cleaned all the same, the field
    as the missing instant.  And a frame in which every date parses is
    turned down when two of its headers are renamed to [date]. *)
Lemma missing_date_is_accepted :
  (exists df,
     result_of (load (U := no_sigma) (N := exact) (P := plain)
                  (Some (table (campaign march_gap counts)))) = Return (Some df) /\
     getitem df "date" =
       OneColumn (datetime_column [Some 20240311; None; Some 20240313]%Z)) /\
  load (U := no_sigma) (N := exact) (P := plain)
    (Some (table (campaign march counts ++ [(codes "date ", march)]))) [] =
    (Return None,
     [st_success "CSV file uploaded successfully! Processing data...";
      st_error (message DateCoercionError)]).
Proof.
  split; [|reflexivity]. eexists. split; reflexivity.
Qed.

(** ** The engagements column *)

(** The repaired value of one field of a column: the number the field
    reads as in that column, or 0 when the field is missing or is no
    number. *)
Definition repaired {N : Numbers} {P : Parsers} (s : Series) (c : cell) (n : num)
  : Prop :=
  match to_numeric_cell s c with
  | Some z => n = z
  | None => n = of_Z 0
  end.

Definition counts_negative : Series := [Some "-5"; Some "N/A"; None; Some "12"].

Definition returns : DataFrame :=
  [(codes "date", [Some "2024-03-11"; Some "2024-03-12"; Some "2024-03-13";
                   Some "2024-03-14"]);
   (codes "platform", [Some "Instagram"; Some "TikTok"; Some "Instagram"; Some "X"]);
   (codes "sentiment", [Some "positive"; Some "neutral"; Some "positive"; None]);
   (codes "location", [Some "Jakarta"; Some "Bandung"; Some "Jakarta"; Some "Medan"]);
   (codes "engagements", counts_negative);
   (codes "media_type", [Some "video"; Some "image"; Some "video"; Some "text"])].

Section Engagements.

Context {N : Numbers} {P : Parsers}.

Lemma fillna_repaired (ctx col : Series) :
  Forall2 (repaired ctx) col (fillna (map (to_numeric_cell ctx) col)).
Proof.
  induction col as [|c col IH]; simpl; constructor; [|exact IH].
  unfold repaired. now destruct (to_numeric_cell ctx c).
Qed.

Lemma leb_refl (a : num) : leb a a = true.
Proof. now destruct (leb_total a a). Qed.

Lemma repaired_nonneg (ctx l : Series) (ns : list num) :
  Forall2 (repaired ctx) l ns ->
  Forall (fun c => forall z, to_numeric_cell ctx c = Some z ->
                             leb (of_Z 0) z = true) l ->
  Forall (fun n => leb (of_Z 0) n = true) ns.
Proof.
  induction 1 as [|c n l ns R _ IH]; intros Hn; constructor.
  - inversion_clear Hn as [|? ? Hc _]. unfold repaired in R.
    destruct (to_numeric_cell ctx c) as [z|]; subst; [now apply Hc | apply leb_refl].
  - inversion_clear Hn. now apply IH.
Qed.

(** C2, as the code has it: on a frame whose headers hold [engagements]
    once the repair never fails and shows nothing; it gives one number per
    row, which is the number the field reads as in its column when it
    reads as one, and exactly 0 when the field is missing or is no number.
    The numbers are kept as they are read, so the column is non-negative
    when the numbers read are. *)
Theorem repair_engagements
  (df : DataFrame) (col : Series) (page : list event) :
  getitem df "engagements" = OneColumn col ->
  exists ns,
    repairEngagements df page = (Return ns, page) /\
    List.length ns = List.length col /\
    Forall2 (repaired col) col ns /\
    (Forall (fun c => forall z, to_numeric_cell col c = Some z ->
                                leb (of_Z 0) z = true) col ->
     Forall (fun n => leb (of_Z 0) n = true) ns).
Proof.
  intros H. exists (fillna (map (to_numeric_cell col) col)).
  rewrite repairEngagements_run, H.
  pose proof (fillna_repaired col col) as F.
  repeat split; [symmetry; exact (Forall2_length F) | exact F |].
  now apply repaired_nonneg.
Qed.

End Engagements.

Lemma repair_engagements_witness :
  exists ns,
    repairEngagements (N := exact) (P := plain)
      (rename (normalize (U := no_sigma)) (campaign march counts)) [] =
      (Return ns, []) /\
    List.length ns = 3.
Proof.
  destruct (repair_engagements (N := exact) (P := plain)
              (rename (normalize (U := no_sigma)) (campaign march counts))
              counts [] eq_refl)
    as (ns & E & L & _).
  exists ns. split; [exact E | exact L].
Defined.

(** C2, as the spec has it, fails: a negative number in the file stays
    negative.  And with the required columns present the repair fails
    when two headers are renamed to [engagements]: the conversion raises
    and the upload is turned down with the unexpected-error message. *)
Lemma repair_engagements_negative :
  (schema_ok returns = true /\
   repairEngagements (N := exact) (P := plain) returns [] =
     (Return [-5; 0; 0; 12]%Z, []) /\
   ~ Forall (fun n => (0 <= n)%Z) [-5; 0; 0; 12]%Z) /\
  (schema_ok (rename (normalize (U := no_sigma))
                (campaign march counts ++ [(codes "engagements ", counts)])) = true /\
   repairEngagements (N := exact) (P := plain)
     (rename (normalize (U := no_sigma))
        (campaign march counts ++ [(codes "engagements ", counts)])) [] =
     (Raise (Exception "arg must be a list, tuple, 1-d array, or Series"), []) /\
   load (U := no_sigma) (N := exact) (P := plain)
     (Some (table (campaign march counts ++ [(codes "engagements ", counts)]))) [] =
     (Return None,
      [st_success "CSV file uploaded successfully! Processing data...";
       st_error (message (UnexpectedError
                  "arg must be a list, tuple, 1-d array, or Series"))])).
Proof.
  split; [|repeat split].
  repeat split. intros H. inversion_clear H as [|? ? H0 _]. lia.
Qed.

(** ** Empty uploads and the gate before the charts *)

Definition six_headers : DataFrame :=
  headers_only
    ["Date"; "Platform"; "Sentiment"; "Location"; "Engagements"; "Media Type"].

Lemma message_empty {N : Numbers} (e : error) :
  st_error (message e) = st_error (message EmptyInputError) ->
  e = EmptyInputError.
Proof. destruct e; [reflexivity | discriminate ..]. Qed.

Lemma pipeline_table_not_empty
  {U : Unicode} {N : Numbers} {P : Parsers} (df : DataFrame) :
  pipeline (table df) <> inl EmptyInputError.
Proof.
  unfold pipeline. cbv zeta.
  destruct (schema_ok _); [|discriminate].
  destruct (getitem _ "date") as [| s |]; try discriminate.
  destruct (to_datetime_series s); [|discriminate].
  destruct (getitem _ "engagements"); discriminate.
Qed.

(** C4, as the code has it: an upload in which the reader finds no header
    line (a file of zero bytes) is turned down as empty, with no frame;
    and that is the only upload turned down as empty. *)
Theorem empty_input_only_without_header
  {U : Unicode} {N : Numbers} {P : Parsers} :
  (forall page,
     load (Some no_columns) page =
       (Return None, page ++ [st_error (message EmptyInputError)])) /\
  (forall u,
     In (st_error (message EmptyInputError)) (page_of (load (Some u))) ->
     u = no_columns).
Proof.
  split; [reflexivity|].
  intros [| | e | df]; [reflexivity | | |]; unfold page_of;
    rewrite load_pipeline.
  - simpl. intros [H | []]. discriminate.
  - cbn [pipeline uploaded app snd In].
    intros [H | []]. apply message_empty in H. discriminate.
  - pose proof (pipeline_table_not_empty df) as Hn.
    destruct (pipeline (table df)) as [e | ds]; cbn [uploaded app snd In].
    + intros [H | [H | []]]; [discriminate|].
      apply message_empty in H. congruence.
    + intros [H | [H | [H | []]]]; discriminate.
Qed.

(** C4, as the spec has it, fails: a file that is the six headers and no
    row is not turned down; it is cleaned into a frame of no rows. *)
Lemma header_only_is_accepted :
  nrows six_headers = 0 /\
  (exists df,
     load (U := no_sigma) (N := exact) (P := plain) (Some (table six_headers)) [] =
       (Return (Some df),
        [st_success "CSV file uploaded successfully! Processing data...";
         st_success "Data successfully cleaned and prepared for analysis!";
         st_dataframe df]) /\
     getitem df "date" = OneColumn (datetime_column []) /\
     getitem df "engagements" = OneColumn (numeric_column [])) /\
  ~ In (st_error (message EmptyInputError))
       (page_of (load (U := no_sigma) (N := exact) (P := plain)
                   (Some (table six_headers)))).
Proof.
  split; [reflexivity|]. split.
  - eexists. repeat split.
  - vm_compute. intros [H | [H | [H | []]]]; discriminate.
Qed.

Section OnlyCharts.

Context {N : Numbers}.

(** A piece of the script that shows charts and nothing else. *)
Definition only_charts {A : Type} (m : M A) : Prop :=
  forall page, exists (r : outcome A) (figs : list event),
    m page = (r, page ++ figs) /\ forallb is_chart figs = true.

Lemma only_charts_ret {A : Type} (a : A) : only_charts (ret a).
Proof. intros page. exists (Return a), []. now rewrite app_nil_r. Qed.

Lemma only_charts_raise {A : Type} (x : exn) : only_charts (@raise N A x).
Proof. intros page. exists (Raise x), []. now rewrite app_nil_r. Qed.

Lemma only_charts_show (fig : figure) : only_charts (show (st_plotly_chart fig)).
Proof. intros page. now exists (Return tt), [st_plotly_chart fig]. Qed.

Lemma only_charts_bind {A B : Type} (m : M A) (k : A -> M B) :
  only_charts m -> (forall a, only_charts (k a)) -> only_charts (bind m k).
Proof.
  intros Hm Hk page. unfold bind.
  destruct (Hm page) as (r & figs & -> & F).
  destruct r as [a | x].
  - destruct (Hk a (page ++ figs)) as (r' & figs' & -> & F').
    exists r', (figs ++ figs'). rewrite app_assoc. split; [reflexivity|].
    rewrite forallb_app, F, F'. reflexivity.
  - now exists (Raise x), figs.
Qed.

Lemma only_charts_labels (df : Dataset) (key : string) :
  only_charts (labels_of df key).
Proof.
  unfold labels_of. destruct (getitem df key) as [| [] |];
    first [apply only_charts_raise | apply only_charts_ret].
Qed.

Lemma only_charts_instants (df : Dataset) (key : string) :
  only_charts (instants_of df key).
Proof.
  unfold instants_of. destruct (getitem df key) as [| [] |];
    first [apply only_charts_raise | apply only_charts_ret].
Qed.

Lemma only_charts_numbers (df : Dataset) (key : string) :
  only_charts (numbers_of df key).
Proof.
  unfold numbers_of. destruct (getitem df key) as [| [] |];
    first [apply only_charts_raise | apply only_charts_ret].
Qed.

Lemma forallb_chart_no_error (figs : list event) :
  forallb is_chart figs = true -> existsb is_error figs = false.
Proof.
  induction figs as [|e figs IH]; simpl; [reflexivity|].
  intros H. apply andb_true_iff in H as [H1 H2].
  rewrite (IH H2). now destruct e.
Qed.

End OnlyCharts.

Section Gate.

Context {U : Unicode} {N : Numbers} {P : Parsers} {S : SortValues}.

Lemma charts_only_charts (df : Dataset) : only_charts (charts df).
Proof.
  unfold charts.
  repeat first [ apply only_charts_bind; [|intro]
               | apply only_charts_labels
               | apply only_charts_instants
               | apply only_charts_numbers
               | apply only_charts_show ].
Qed.

(** The page of the whole run, by where the cleaning ends. *)
Lemma main_page (u : upload) :
  match pipeline u with
  | inl e =>
      page_of (main (Some u)) =
        uploaded u ++
        [st_error (message e);
         st_info
           "Please upload your CSV file above to start analyzing your Ramadan Campaign data."]
  | inr df =>
      exists figs,
        page_of (main (Some u)) = uploaded u ++ cleaned df ++ figs /\
        forallb is_chart figs = true
  end.
Proof.
  unfold page_of, main, bind. rewrite load_pipeline.
  destruct (pipeline u) as [e | df].
  - unfold show. cbn [app snd]. now rewrite <- app_assoc.
  - destruct (charts_only_charts df ([] ++ uploaded u ++ cleaned df))
      as (r & figs & -> & F).
    exists figs. cbn [app snd]. now rewrite <- app_assoc.
Qed.

Lemma uploaded_quiet (u : upload) :
  existsb is_chart (uploaded u) = false /\
  existsb is_error (uploaded u) = false.
Proof. destruct u; split; reflexivity. Qed.

(** C5: for every upload, the cleaning run returns (it never raises);
    when it ends without a frame, because a step failed, the page shows
    an error message and no chart; and a chart on the page means that the
    cleaning ended with a frame and showed no error. *)
Theorem charts_only_after_cleaning (u : upload) :
  (exists df, result_of (load (Some u)) = Return df) /\
  (forall e, pipeline u = inl e ->
     result_of (load (Some u)) = Return None /\
     In (st_error (message e)) (page_of (main (Some u)))) /\
  (result_of (load (Some u)) = Return None ->
     existsb is_error (page_of (main (Some u))) = true /\
     existsb is_chart (page_of (main (Some u))) = false) /\
  (existsb is_chart (page_of (main (Some u))) = true ->
     exists df,
       pipeline u = inr df /\
       result_of (load (Some u)) = Return (Some df) /\
       existsb is_error (page_of (main (Some u))) = false).
Proof.
  pose proof (main_page u) as M. pose proof (uploaded_quiet u) as [Uc Ue].
  unfold result_of. rewrite load_pipeline.
  destruct (pipeline u) as [e | df].
  - rewrite M. split; [now exists None|]. split; [|split].
    + intros e' H. injection H as <-. split; [reflexivity|].
      apply in_or_app. right. now left.
    + intros _. rewrite !existsb_app, Ue, Uc. split; reflexivity.
    + rewrite existsb_app, Uc. discriminate.
  - destruct M as (figs & -> & F). split; [now exists (Some df)|].
    split; [|split]; try discriminate.
    intros _. exists df. repeat split.
    rewrite !existsb_app, Ue, (forallb_chart_no_error figs F). reflexivity.
Qed.

End Gate.

(** ** Grouping *)

Section GroupByFacts.

Context {K V : Type} (cmp : K -> K -> comparison).

Hypothesis cmp_eq : forall a b, cmp a b = Eq <-> a = b.
Hypothesis cmp_antisym : forall a b, cmp a b = CompOpp (cmp b a).
Hypothesis cmp_trans : forall a b c, cmp a b = Lt -> cmp b c = Lt -> cmp a c = Lt.

Definition same (a b : K) : bool :=
  match cmp a b with Eq => true | _ => false end.

(** The values, in row order, of the rows of one key. *)
Definition rows_of (k : K) (rows : list (option K * V)) : list V :=
  map snd
    (filter (fun row => match fst row with Some k' => same k k' | None => false end)
            rows).

(** The values that the groups hold for one key. *)
Definition group_of (k : K) (groups : list (K * list V)) : list V :=
  flat_map (fun g => if same k (fst g) then snd g else []) groups.

Definition keys_sorted (groups : list (K * list V)) : Prop :=
  StronglySorted (fun a b => cmp a b = Lt) (map fst groups).

Lemma same_true (a b : K) : same a b = true <-> a = b.
Proof.
  unfold same. rewrite <- cmp_eq. destruct (cmp a b); split; congruence.
Qed.

Lemma same_refl (a : K) : same a a = true.
Proof. now apply same_true. Qed.

Lemma cmp_irrefl (a : K) : cmp a a <> Lt.
Proof. rewrite (proj2 (cmp_eq a a) eq_refl). discriminate. Qed.

Lemma head_absent (k : K) (rest : list K) :
  Forall (fun b => cmp k b = Lt) rest -> ~ In k rest.
Proof.
  intros F I. rewrite Forall_forall in F. exact (cmp_irrefl k (F k I)).
Qed.

Lemma add_group_keys (k : K) (v : V) (groups : list (K * list V)) (x : K) :
  In x (map fst (add_group cmp k v groups)) <-> x = k \/ In x (map fst groups).
Proof.
  induction groups as [|[k' t] rest IH]; simpl; [intuition congruence|].
  destruct (cmp k k') eqn:E; simpl.
  - apply cmp_eq in E. subst. intuition congruence.
  - intuition congruence.
  - rewrite IH. intuition congruence.
Qed.

Lemma add_group_sorted (k : K) (v : V) (groups : list (K * list V)) :
  keys_sorted groups -> keys_sorted (add_group cmp k v groups).
Proof.
  unfold keys_sorted.
  induction groups as [|[k' t] rest IH]; simpl; intros H.
  - repeat constructor.
  - inversion_clear H as [|? ? Hs Hf].
    destruct (cmp k k') eqn:E; simpl.
    + now constructor.
    + constructor; [now constructor|].
      constructor; [exact E|].
      eapply Forall_impl; [|exact Hf]. intros x Hx. now apply (cmp_trans k k' x).
    + constructor; [now apply IH|].
      apply Forall_forall. intros x Hx. apply add_group_keys in Hx.
      destruct Hx as [-> | Hx].
      * rewrite cmp_antisym, E. reflexivity.
      * rewrite Forall_forall in Hf. now apply Hf.
Qed.

Lemma keys_sorted_NoDup (groups : list (K * list V)) :
  keys_sorted groups -> NoDup (map fst groups).
Proof.
  unfold keys_sorted. induction 1 as [|a l _ IH Hf]; constructor; [|exact IH].
  now apply head_absent.
Qed.

Lemma group_of_absent (k : K) (groups : list (K * list V)) :
  ~ In k (map fst groups) -> group_of k groups = [].
Proof.
  unfold group_of. induction groups as [|[k' t] rest IH]; simpl; [reflexivity|].
  intros Hn. destruct (same k k') eqn:E.
  - apply same_true in E. subst. tauto.
  - apply IH. tauto.
Qed.

Lemma add_group_values (k k0 : K) (v : V) (groups : list (K * list V)) :
  keys_sorted groups ->
  group_of k (add_group cmp k0 v groups) =
  group_of k groups ++ (if same k k0 then [v] else []).
Proof.
  unfold keys_sorted.
  induction groups as [|[k' t] rest IH]; simpl; intros H.
  - now destruct (same k k0).
  - inversion_clear H as [|? ? Hs Hf]. pose proof (head_absent k' _ Hf) as Hn.
    destruct (cmp k0 k') eqn:E; simpl.
    + apply cmp_eq in E. subst k'. fold (group_of k rest).
      destruct (same k k0) eqn:Ek.
      * apply same_true in Ek. subst k.
        rewrite (group_of_absent k0 rest Hn). now rewrite !app_nil_r.
      * simpl. now rewrite app_nil_r.
    + destruct (same k k0) eqn:Ek; [|simpl; now rewrite app_nil_r].
      apply same_true in Ek. subst k.
      assert (same k0 k' = false) as Ek'.
      { unfold same. now rewrite E. }
      rewrite Ek'. simpl. fold (group_of k0 rest).
      rewrite group_of_absent; [reflexivity|].
      intros I. rewrite Forall_forall in Hf.
      exact (cmp_irrefl k0 (cmp_trans k0 k' k0 E (Hf k0 I))).
    + fold (group_of k (add_group cmp k0 v rest)). fold (group_of k rest).
      rewrite (IH Hs). now rewrite app_assoc.
Qed.

Lemma fold_sorted (rows : list (option K * V)) (groups : list (K * list V)) :
  keys_sorted groups -> keys_sorted (fold_left (add_row cmp) rows groups).
Proof.
  revert groups.
  induction rows as [|[[k0|] v] rows IH]; intros groups H; simpl fold_left.
  - exact H.
  - apply IH. unfold add_row. simpl. now apply add_group_sorted.
  - now apply IH.
Qed.

Lemma fold_keys (rows : list (option K * V)) (groups : list (K * list V)) (x : K) :
  In x (map fst (fold_left (add_row cmp) rows groups)) <->
  In x (map fst groups) \/ In (Some x) (map fst rows).
Proof.
  revert groups.
  induction rows as [|[[k0|] v] rows IH]; intros groups; simpl fold_left.
  - simpl. tauto.
  - rewrite IH. unfold add_row. simpl. rewrite add_group_keys.
    intuition congruence.
  - rewrite IH. simpl. intuition congruence.
Qed.

Lemma fold_values (k : K) (rows : list (option K * V)) (groups : list (K * list V)) :
  keys_sorted groups ->
  group_of k (fold_left (add_row cmp) rows groups) =
  group_of k groups ++ rows_of k rows.
Proof.
  revert groups. unfold rows_of.
  induction rows as [|[[k0|] v] rows IH]; intros groups H; simpl fold_left.
  - simpl. now rewrite app_nil_r.
  - rewrite IH by (unfold add_row; simpl; now apply add_group_sorted).
    unfold add_row. simpl. rewrite (add_group_values k k0 v groups H).
    rewrite <- app_assoc. now destruct (same k k0).
  - now rewrite IH.
Qed.

Lemma group_of_In (k : K) (vs : list V) (groups : list (K * list V)) :
  NoDup (map fst groups) -> In (k, vs) groups -> group_of k groups = vs.
Proof.
  induction groups as [|[k' t] rest IH]; simpl; [tauto|].
  intros Hd [E | I]; inversion_clear Hd as [|? ? Hn Hd'].
  - injection E as -> ->. rewrite same_refl.
    fold (group_of k rest). rewrite (group_of_absent k rest Hn).
    apply app_nil_r.
  - destruct (same k k') eqn:E.
    + apply same_true in E. subst. exfalso. apply Hn.
      now apply (in_map fst) in I.
    + now apply IH.
Qed.

(** What grouping gives: the keys come in ascending order, each once; a
    key has a group when it occurs, and its group holds the values of the
    rows of that key, in row order. *)
Lemma groupby_spec (keys : list (option K)) (vals : list V) :
  keys_sorted (groupby cmp keys vals) /\
  NoDup (map fst (groupby cmp keys vals)) /\
  (forall k, In k (map fst (groupby cmp keys vals)) <->
             In (Some k) (map fst (combine keys vals))) /\
  (forall k vs, In (k, vs) (groupby cmp keys vals) ->
                vs = rows_of k (combine keys vals)).
Proof.
  unfold groupby.
  assert (keys_sorted (fold_left (add_row cmp) (combine keys vals) [])) as Hs
    by (apply fold_sorted; constructor).
  split; [exact Hs|]. split; [now apply keys_sorted_NoDup|]. split.
  - intros k. rewrite fold_keys. simpl. tauto.
  - intros k vs I. apply keys_sorted_NoDup in Hs.
    rewrite <- (group_of_In k vs _ Hs I). rewrite fold_values by constructor.
    reflexivity.
Qed.

End GroupByFacts.

(** *** Text keys *)

Lemma string_cmp_eq (a b : string) : String.compare a b = Eq <-> a = b.
Proof. exact (String_as_OT.cmp_eq a b). Qed.

Lemma string_cmp_trans (a b c : string) :
  String.compare a b = Lt -> String.compare b c = Lt -> String.compare a c = Lt.
Proof.
  intros H1 H2. apply String_as_OT.cmp_lt.
  apply String_as_OT.cmp_lt in H1, H2.
  exact (String_as_OT.lt_trans a b c H1 H2).
Qed.

Lemma same_eqb (a b : string) : same String.compare a b = String.eqb a b.
Proof.
  destruct (String.eqb_spec a b) as [-> | Hn].
  - apply same_true; [exact string_cmp_eq | reflexivity].
  - destruct (same String.compare a b) eqn:E; [|reflexivity].
    apply (same_true _ string_cmp_eq) in E. contradiction.
Qed.

Lemma rows_of_values_of {V : Type} (k : string)
  (keys : list (option string)) (vals : list V) :
  rows_of String.compare k (combine keys vals) = values_of k keys vals.
Proof.
  unfold rows_of, values_of. f_equal.
  apply filter_ext. intros [[k'|] v]; simpl; [apply same_eqb | reflexivity].
Qed.

Lemma labels_In (k : string) (s : Series) : In k (labels s) <-> In (Some k) s.
Proof.
  induction s as [|[k'|] s IH]; simpl; [tauto | |];
    rewrite IH; intuition congruence.
Qed.

Lemma distinct_In (k : string) (s : Series) : In k (distinct s) <-> In (Some k) s.
Proof. unfold distinct. rewrite nodup_In. apply labels_In. Qed.

Lemma combine_fst {A B : Type} (l1 : list A) (l2 : list B) :
  List.length l1 = List.length l2 -> map fst (combine l1 l2) = l1.
Proof.
  revert l2. induction l1 as [|a l1 IH]; intros [|b l2] H; simpl in *;
    try discriminate; [reflexivity|].
  f_equal. apply IH. now injection H.
Qed.

Lemma combine_snd {A B : Type} (l1 : list A) (l2 : list B) :
  List.length l1 = List.length l2 -> map snd (combine l1 l2) = l2.
Proof.
  revert l2. induction l1 as [|a l1 IH]; intros [|b l2] H; simpl in *;
    try discriminate; [reflexivity|].
  f_equal. apply IH. now injection H.
Qed.

(** Grouping a value column by a text column. *)
Lemma groups_spec {V : Type} (keys : list (option string)) (vals : list V) :
  List.length keys = List.length vals ->
  NoDup (map fst (groupby String.compare keys vals)) /\
  List.length (groupby String.compare keys vals) = List.length (distinct keys) /\
  forall k vs,
    In (k, vs) (groupby String.compare keys vals) <->
    In k (distinct keys) /\ vs = values_of k keys vals.
Proof.
  intros L.
  destruct (groupby_spec String.compare string_cmp_eq
              String.compare_antisym string_cmp_trans keys vals)
    as (_ & Hd & Hk & Hv).
  assert (forall k, In k (map fst (groupby String.compare keys vals)) <->
                    In k (distinct keys)) as Hi
    by (intros k; now rewrite Hk, (combine_fst keys vals L), distinct_In).
  split; [exact Hd|]. split.
  - rewrite <- (length_map fst). apply Permutation_length.
    apply NoDup_Permutation; [exact Hd | apply NoDup_nodup | exact Hi].
  - intros k vs. split.
    + intros I. split.
      * apply Hi. now apply (in_map fst) in I.
      * rewrite <- rows_of_values_of. now apply Hv.
    + intros [I ->]. apply Hi, in_map_iff in I. destruct I as ([k' vs] & E & I).
      simpl in E. subst k'. rewrite <- rows_of_values_of, <- (Hv k vs I). exact I.
Qed.

Lemma aggregate_keys {K V W : Type} (agg : list V -> W) (groups : list (K * list V)) :
  map fst (aggregate agg groups) = map fst groups.
Proof. unfold aggregate. rewrite List.map_map. reflexivity. Qed.

Lemma aggregate_In {K V W : Type} (agg : list V -> W)
  (groups : list (K * list V)) (k : K) (w : W) :
  In (k, w) (aggregate agg groups) <->
  exists vs, In (k, vs) groups /\ w = agg vs.
Proof.
  unfold aggregate. rewrite in_map_iff. split.
  - intros ([k' vs] & E & I). simpl in E. injection E as -> <-. now exists vs.
  - intros (vs & I & ->). now exists (k, vs).
Qed.

(** *** Sorted rows *)

Lemma sorted_app {A : Type} (R : A -> A -> Prop) (l1 l2 : list A) :
  StronglySorted R (l1 ++ l2) ->
  StronglySorted R l1 /\ StronglySorted R l2 /\
  forall a b, In a l1 -> In b l2 -> R a b.
Proof.
  induction l1 as [|x l1 IH]; simpl; intros H.
  - repeat split; [constructor | exact H | contradiction].
  - inversion_clear H as [|? ? Hs Hf]. destruct (IH Hs) as (S1 & S2 & H12).
    apply Forall_app in Hf as [F1 F2]. repeat split.
    + now constructor.
    + exact S2.
    + intros a b [<- | Ia] Ib; [|now apply H12].
      rewrite Forall_forall in F2. now apply F2.
Qed.

Section Views.

Context {N : Numbers} {S : SortValues}.

(** A grouped and aggregated frame, sorted largest value first. *)
Lemma sorted_groups_spec {V W : Type} (le : W -> W -> bool) (agg : list V -> W)
  (keys : list (option string)) (vals : list V) :
  (forall a b, le a b = true \/ le b a = true) ->
  (forall a b c, le a b = true -> le b c = true -> le a c = true) ->
  List.length keys = List.length vals ->
  let rows := sort_values le (aggregate agg (groupby String.compare keys vals)) in
  Permutation (aggregate agg (groupby String.compare keys vals)) rows /\
  NoDup (map fst rows) /\
  (forall k w, In (k, w) rows <->
               In k (distinct keys) /\ w = agg (values_of k keys vals)) /\
  StronglySorted (descending_by le) rows.
Proof.
  intros Ht Hr L rows. destruct (groups_spec keys vals L) as (Hd & _ & H).
  pose proof (sort_values_perm _ _ le
                (aggregate agg (groupby String.compare keys vals))) as Hp.
  fold rows in Hp. split; [exact Hp|]. split; [|split].
  - apply (Permutation_NoDup (Permutation_map fst Hp)).
    now rewrite aggregate_keys.
  - intros k w. split.
    + intros I. apply (Permutation_in _ (Permutation_sym Hp)) in I.
      apply aggregate_In in I as (vs & I & ->). apply H in I as [I ->]. now split.
    + intros [I ->]. apply (Permutation_in _ Hp). apply aggregate_In.
      exists (values_of k keys vals). split; [|reflexivity]. now apply H.
  - now apply sort_values_sorted.
Qed.


(** C7, as the code has it: the location view is the first five rows of
    the grouped frame sorted largest computed sum first.  The grouped
    frame has one row per location that occurs, with the sum, as the
    column computes it, of the engagements of its rows; the view has five
    rows, or as many as there are locations when there are fewer; and no
    location left out has a larger computed sum than one that is in. *)
Theorem top_five_locations (location : Series) (engagements : list num) :
  List.length location = List.length engagements ->
  (forall k v,
     In (k, v) (location_engagements location engagements) <->
     In k (distinct location) /\ v = sum (values_of k location engagements)) /\
  List.length (top_5_locations location engagements) =
    Nat.min 5 (List.length (distinct location)) /\
  StronglySorted (descending_by leb) (top_5_locations location engagements) /\
  NoDup (map fst (top_5_locations location engagements)) /\
  exists rest,
    Permutation (location_engagements location engagements)
                (top_5_locations location engagements ++ rest) /\
    forall a b,
      In a (top_5_locations location engagements) -> In b rest ->
      leb (snd b) (snd a) = true.
Proof.
  intros L. unfold top_5_locations, location_engagements, groupby_sum.
  destruct (groups_spec location engagements L) as (Hd & Hl & H).
  destruct (sorted_groups_spec leb sum location engagements leb_total leb_trans L)
    as (Hp & Ns & _ & Hs).
  cbv zeta in Hp, Ns, Hs.
  set (sorted := sort_values leb
                   (aggregate sum (groupby String.compare location engagements)))
    in *.
  rewrite <- (firstn_skipn 5 sorted) in Hp, Ns, Hs.
  apply sorted_app in Hs as (S1 & _ & H12).
  split; [|split; [|split; [exact S1|split]]].
  - intros k v. rewrite aggregate_In. split.
    + intros (vs & I & ->). apply H in I as [I ->]. now split.
    + intros [I ->]. exists (values_of k location engagements).
      split; [now apply H | reflexivity].
  - rewrite length_firstn, <- Hl. f_equal.
    rewrite <- (length_map (fun g => (fst g, sum (snd g)))).
    symmetry. apply Permutation_length.
    rewrite (firstn_skipn 5 sorted) in Hp. exact Hp.
  - rewrite map_app in Ns. exact (NoDup_app_remove_r _ _ Ns).
  - exists (skipn 5 sorted). split; [exact Hp|].
    intros a b Ia Ib. exact (H12 a b Ia Ib).
Qed.

End Views.

(** *** Exact sums *)

Lemma total_app (l1 l2 : list Z) : total (l1 ++ l2) = (total l1 + total l2)%Z.
Proof. induction l1 as [|x l1 IH]; simpl; [reflexivity | rewrite IH; lia]. Qed.

Lemma total_perm (l1 l2 : list Z) : Permutation l1 l2 -> total l1 = total l2.
Proof. induction 1; simpl; lia. Qed.

Lemma total_nonneg (l : list Z) :
  Forall (fun v => (0 <= v)%Z) l -> (0 <= total l)%Z.
Proof. induction 1; simpl; lia. Qed.

Lemma total_In (x : Z) (l : list Z) :
  Forall (fun v => (0 <= v)%Z) l -> In x l -> (x <= total l)%Z.
Proof.
  induction 1 as [|y l Hy Hl IH]; simpl; [contradiction|].
  pose proof (total_nonneg l Hl). intros [-> | I]; [lia|]. specialize (IH I). lia.
Qed.

Lemma abs_nonneg (l : list Z) : Forall (fun v => (0 <= v)%Z) (map Z.abs l).
Proof. apply Forall_map, Forall_forall. intros x _. lia. Qed.

Section GroupTotals.

Context {K : Type} (cmp : K -> K -> comparison).

(** The sum of the sums of the groups. *)
Definition grand_total (groups : list (K * list Z)) : Z :=
  total (map snd (aggregate total groups)).

Lemma add_group_total (k : K) (v : Z) (groups : list (K * list Z)) :
  grand_total (add_group cmp k v groups) = (grand_total groups + v)%Z.
Proof.
  unfold grand_total, aggregate.
  induction groups as [|[k' t] rest IH]; simpl; [lia|].
  destruct (cmp k k'); simpl; [rewrite total_app; simpl; lia | lia |].
  rewrite IH. lia.
Qed.

Lemma fold_total (rows : list (option K * Z)) (groups : list (K * list Z)) :
  grand_total (fold_left (add_row cmp) rows groups) =
  (grand_total groups + total (present rows))%Z.
Proof.
  revert groups. induction rows as [|[[k|] v] rows IH]; intros groups.
  - unfold present. simpl. lia.
  - simpl fold_left. rewrite IH. unfold add_row, present. simpl.
    rewrite add_group_total. lia.
  - simpl fold_left. rewrite IH. reflexivity.
Qed.

Lemma groupby_total (keys : list (option K)) (zs : list Z) :
  grand_total (groupby cmp keys zs) = total (present (combine keys zs)).
Proof. unfold groupby. rewrite fold_total. reflexivity. Qed.

Lemma present_le (keys : list (option K)) (zs : list Z) :
  Forall (fun v => (0 <= v)%Z) zs ->
  (total (present (combine keys zs)) <= total zs)%Z.
Proof.
  intros H. revert keys. unfold present.
  induction H as [|z zs Hz Hl IH]; intros [|k keys]; simpl; try lia.
  - pose proof (total_nonneg zs Hl). lia.
  - specialize (IH keys). destruct k; simpl; lia.
Qed.

Lemma add_group_map {V W : Type} (f : V -> W) (k : K) (v : V)
  (groups : list (K * list V)) :
  add_group cmp k (f v) (map (fun g => (fst g, map f (snd g))) groups) =
  map (fun g => (fst g, map f (snd g))) (add_group cmp k v groups).
Proof.
  induction groups as [|[k' t] rest IH]; simpl; [reflexivity|].
  destruct (cmp k k'); simpl; [now rewrite map_app | reflexivity | now rewrite IH].
Qed.

Lemma groupby_map {V W : Type} (f : V -> W) (keys : list (option K)) (vals : list V) :
  groupby cmp keys (map f vals) =
  map (fun g => (fst g, map f (snd g))) (groupby cmp keys vals).
Proof.
  unfold groupby.
  change (@nil (K * list W)) with
    (map (fun g : K * list V => (fst g, map f (snd g))) []).
  generalize (@nil (K * list V)) as groups. revert vals.
  induction keys as [|k keys IH]; intros [|v vals] groups; try reflexivity.
  simpl. destruct k as [k|]; unfold add_row at 2 4; simpl.
  - rewrite add_group_map. apply IH.
  - apply IH.
Qed.

(** No group holds more, in magnitude, than the column does. *)
Lemma group_bound (keys : list (option K)) (zs : list Z) (k : K) (vs : list Z) :
  In (k, vs) (groupby cmp keys zs) ->
  (total (map Z.abs vs) <= total (map Z.abs zs))%Z.
Proof.
  intros I.
  assert (In (total (map Z.abs vs))
             (map snd (aggregate total (groupby cmp keys (map Z.abs zs))))) as Hi.
  { rewrite groupby_map. unfold aggregate. rewrite !List.map_map. simpl.
    apply in_map_iff. now exists (k, vs). }
  apply total_In in Hi.
  - fold (grand_total (groupby cmp keys (map Z.abs zs))) in Hi.
    rewrite groupby_total in Hi.
    pose proof (present_le keys (map Z.abs zs) (abs_nonneg zs)). lia.
  - rewrite groupby_map. unfold aggregate. rewrite !List.map_map. simpl.
    apply Forall_map, Forall_forall. intros g _. apply total_nonneg, abs_nonneg.
Qed.

End GroupTotals.

Section Conservation.

Context {N : Numbers} {S : SortValues}.

(** A row with the number that its integer is in the column. *)
Definition in_column (row : string * Z) : string * num := (fst row, of_Z (snd row)).

(** C9, as the code has it: for integer engagements whose magnitudes add
    up to at most 2^53, where the sums of the column are exact, the
    platform view holds the exact sums of the platforms, and they add up
    to the engagements of the rows that have a platform; they add up to
    the whole engagements column when no row lacks its platform. *)
Theorem platform_sums_total (platform : Series) (zs : list Z) :
  (total (map Z.abs zs) <= 2 ^ 53)%Z ->
  exists sums : list (string * Z),
    platform_engagements platform (map of_Z zs) = map in_column sums /\
    total (map snd sums) = total (present (combine platform zs)) /\
    (List.length platform = List.length zs ->
     Forall (fun c => c <> None) platform ->
     total (map snd sums) = total zs).
Proof.
  intros B.
  assert (groupby_sum String.compare platform (map of_Z zs) =
          map in_column (aggregate total (groupby String.compare platform zs)))
    as E.
  { unfold groupby_sum. rewrite groupby_map. unfold aggregate.
    rewrite !List.map_map. apply map_ext_in. intros [k vs] I.
    unfold in_column. simpl. f_equal. apply sum_exact.
    pose proof (group_bound String.compare platform zs k vs I). lia. }
  pose proof (sort_values_perm _ _ leb
                (groupby_sum String.compare platform (map of_Z zs))) as Hp.
  fold (platform_engagements platform (map of_Z zs)) in Hp. rewrite E in Hp.
  apply Permutation_sym, Permutation_map_inv in Hp as (sums & Es & Hp).
  exists sums. split; [exact Es|].
  assert (total (map snd sums) = total (present (combine platform zs))) as T.
  { rewrite <- (total_perm _ _ (Permutation_map snd Hp)).
    exact (groupby_total String.compare platform zs). }
  split; [exact T|]. intros L F. rewrite T. clear - L F. unfold present.
  rewrite <- (combine_snd platform zs L) at 2. do 2 f_equal.
  clear L. revert zs.
  induction F as [|[k|] platform Hc _ IH]; intros [|v vals]; simpl;
    try reflexivity; [|congruence].
  now rewrite IH.
Qed.

End Conservation.

(** *** Rows with different values sort one way only *)

Lemma sorted_perm_unique {K : Type} (l1 l2 : list (K * Z)) :
  StronglySorted (descending_by Z.leb) l1 ->
  StronglySorted (descending_by Z.leb) l2 ->
  Permutation l1 l2 -> NoDup (map snd l1) -> l1 = l2.
Proof.
  revert l2. induction l1 as [|a r1 IH]; intros l2 S1 S2 Hp Hd.
  - apply Permutation_nil in Hp. now subst.
  - destruct l2 as [|b r2]; [apply Permutation_sym, Permutation_nil in Hp; discriminate|].
    inversion_clear S1 as [|? ? Hs1 Hf1]. inversion_clear S2 as [|? ? Hs2 Hf2].
    simpl in Hd. inversion_clear Hd as [|? ? Hn Hd'].
    assert (a = b) as ->.
    { assert (In a (b :: r2)) as Ia by (apply (Permutation_in _ Hp); now left).
      assert (In b (a :: r1)) as Ib
        by (apply (Permutation_in _ (Permutation_sym Hp)); now left).
      destruct Ia as [E | Ia]; [now symmetry|].
      destruct Ib as [E | Ib]; [exact E|].
      rewrite Forall_forall in Hf1, Hf2.
      specialize (Hf1 b Ib). specialize (Hf2 a Ia).
      unfold descending_by in Hf1, Hf2. apply Z.leb_le in Hf1, Hf2.
      exfalso. apply Hn. replace (snd a) with (snd b) by lia.
      now apply in_map. }
    f_equal. apply IH; try assumption. now apply Permutation_cons_inv in Hp.
Qed.

Lemma sort_values_unique {S : SortValues} {K : Type} (l : list (K * Z)) :
  NoDup (map snd l) -> sort_values Z.leb l = insertion_sort Z.leb l.
Proof.
  intros Hd. symmetry. apply sorted_perm_unique.
  - apply insertion_sort_sorted; [exact Z_leb_total | exact Z_leb_trans].
  - apply sort_values_sorted; [exact Z_leb_total | exact Z_leb_trans].
  - rewrite <- (insertion_sort_perm Z.leb l). apply sort_values_perm.
  - apply (Permutation_NoDup
             (Permutation_map snd (insertion_sort_perm Z.leb l)) Hd).
Qed.

Ltac distinct_values :=
  repeat constructor; simpl; intuition discriminate.

(** ** The platform and location views: instances *)

(** Seven locations with seven different sums. *)
Definition seven_locations : Series :=
  [Some "Jakarta"; Some "Bandung"; Some "Medan"; Some "Jakarta"; Some "Surabaya";
   Some "Makassar"; Some "Depok"; Some "Bogor"; Some "Bandung"].

Definition seven_engagements : list Z := [40; 15; 9; 25; 30; 7; 12; 3; 20]%Z.

(** Six locations; the engagements of Jakarta add up to 2^63. *)
Definition six_locations : Series :=
  [Some "Jakarta"; Some "Bandung"; Some "Bogor"; Some "Depok"; Some "Medan";
   Some "Surabaya"; Some "Jakarta"].

Definition six_engagements : Series :=
  [Some "9223372036854775807"; Some "10"; Some "20"; Some "30"; Some "40";
   Some "50"; Some "1"].

Definition overflowing : DataFrame :=
  [(codes "Date", [Some "2024-03-11"; Some "2024-03-11"; Some "2024-03-12";
                   Some "2024-03-12"; Some "2024-03-13"; Some "2024-03-13";
                   Some "2024-03-14"]);
   (codes "Platform", [Some "Instagram"; Some "TikTok"; Some "TikTok";
                       Some "TikTok"; Some "TikTok"; Some "TikTok";
                       Some "Instagram"]);
   (codes "Sentiment", [Some "positive"; None; None; None; None; None; None]);
   (codes "Location", six_locations);
   (codes "Engagements", six_engagements);
   (codes "Media Type", [Some "video"; None; None; None; None; None; None])].

(** Three rows, the second with no platform. *)
Definition unlabelled : DataFrame :=
  [(codes "Date", march);
   (codes "Platform", [Some "Instagram"; None; Some "TikTok"]);
   (codes "Sentiment", [Some "positive"; Some "neutral"; Some "positive"]);
   (codes "Location", [Some "Jakarta"; Some "Bandung"; Some "Jakarta"]);
   (codes "Engagements", counts);
   (codes "Media Type", [Some "video"; Some "image"; Some "video"])].


Lemma top_five_locations_witness :
  top_5_locations (N := exact) (S := keeping_ties)
    seven_locations seven_engagements =
    [("Jakarta", 65%Z); ("Bandung", 35%Z); ("Surabaya", 30%Z); ("Depok", 12%Z);
     ("Medan", 9%Z)] /\
  List.length (top_5_locations (N := exact) (S := keeping_ties)
                 seven_locations seven_engagements) =
    Nat.min 5 (List.length (distinct seven_locations)).
Proof.
  split; [reflexivity|].
  apply (top_five_locations (N := exact) (S := keeping_ties)
           seven_locations seven_engagements).
  reflexivity.
Defined.

Lemma platform_sums_total_witness :
  exists sums : list (string * Z),
    platform_engagements (N := int64) (S := keeping_ties)
      [Some "Instagram"; None; Some "TikTok"] (map wrap [120; 45; 30]%Z) =
      map (in_column (N := int64)) sums /\
    total (map snd sums) = 150%Z.
Proof.
  destruct (platform_sums_total (N := int64) (S := keeping_ties)
              [Some "Instagram"; None; Some "TikTok"] [120; 45; 30]%Z)
    as (sums & E & T & _).
  - vm_compute. discriminate.
  - exists sums. split; [exact E | exact T].
Defined.

(** C7, as the spec has it, fails: in an [int64] column the engagements
    of Jakarta, 9223372036854775807 and 1, are summed to
    -9223372036854775808, and Jakarta is left out of the top five though
    its engagements add up to more than those of any location in it. *)
Lemma top_five_misses_largest :
  exists df : @Dataset int64,
    result_of (load (U := no_sigma) (N := int64) (P := plain)
                 (Some (table overflowing))) = Return (Some df) /\
    getitem df "location" = OneColumn (text_column six_locations) /\
    getitem df "engagements" =
      OneColumn (numeric_column (N := int64)
                   [9223372036854775807; 10; 20; 30; 40; 50; 1]%Z) /\
    (forall S : SortValues,
       top_5_locations (N := int64) (S := S) six_locations
         [9223372036854775807; 10; 20; 30; 40; 50; 1]%Z =
       [("Surabaya", 50%Z); ("Medan", 40%Z); ("Depok", 30%Z); ("Bogor", 20%Z);
        ("Bandung", 10%Z)]) /\
    In ("Jakarta", (-9223372036854775808)%Z)
       (location_engagements (N := int64) six_locations
          [9223372036854775807; 10; 20; 30; 40; 50; 1]%Z) /\
    total (values_of "Jakarta" six_locations
             [9223372036854775807; 10; 20; 30; 40; 50; 1]%Z) =
      9223372036854775808%Z.
Proof.
  eexists. split; [reflexivity|]. split; [reflexivity|]. split; [reflexivity|].
  split; [|split; [simpl; tauto | reflexivity]].
  intros S. unfold top_5_locations.
  change (@leb int64) with Z.leb. rewrite sort_values_unique; [reflexivity|].
  vm_compute. distinct_values.
Qed.


(** C9, as the spec has it, fails: a row with no platform is in no group,
    and its engagements are in no sum. *)
Lemma platform_sums_drop_unlabelled :
  exists df : @Dataset exact,
    result_of (load (U := no_sigma) (N := exact) (P := plain)
                 (Some (table unlabelled))) = Return (Some df) /\
    getitem df "platform" =
      OneColumn (text_column [Some "Instagram"; None; Some "TikTok"]) /\
    getitem df "engagements" =
      OneColumn (numeric_column (N := exact) [120; 45; 30]%Z) /\
    (forall S : SortValues,
       platform_engagements (N := exact) (S := S)
         [Some "Instagram"; None; Some "TikTok"] [120; 45; 30]%Z =
       [("Instagram", 120%Z); ("TikTok", 30%Z)]) /\
    (120 + 30 = 150)%Z /\ total [120; 45; 30]%Z = 195%Z.
Proof.
  eexists. split; [reflexivity|]. split; [reflexivity|]. split; [reflexivity|].
  split; [|split; reflexivity].
  intros S. unfold platform_engagements.
  change (@leb exact) with Z.leb. rewrite sort_values_unique; [reflexivity|].
  vm_compute. distinct_values.
Qed.

(** * More of the script *)

(** ** The check of the required columns, again *)

Lemma schema_ok_In (df : DataFrame) :
  schema_ok df = true <->
  forall r, In r required_columns -> In (codes r) (columns df).
Proof.
  unfold schema_ok. rewrite forallb_forall.
  split; intros H r I; apply has_column_In; now apply H.
Qed.

(** X4: the check looks at nothing but which names are among the headers:
    more columns, or the columns in another order, do not change a yes. *)
Theorem schema_ok_incl (df df' : DataFrame) :
  incl (columns df) (columns df') ->
  schema_ok df = true -> schema_ok df' = true.
Proof.
  rewrite !schema_ok_In. intros I H r Hr. apply I. now apply H.
Qed.

Lemma schema_ok_incl_witness :
  schema_ok ((codes "campaign", [])
             :: rev (rename (normalize (U := no_sigma)) six_headers)) = true.
Proof.
  apply (schema_ok_incl (rename (normalize (U := no_sigma)) six_headers)
           ((codes "campaign", [])
            :: rev (rename (normalize (U := no_sigma)) six_headers))).
  - intros c H. vm_compute in H. vm_compute. tauto.
  - reflexivity.
Defined.

(** ** Messages *)

Lemma length_append (a b : string) :
  String.length (a ++ b) = String.length a + String.length b.
Proof. induction a as [|c a IH]; simpl; [reflexivity | now rewrite IH]. Qed.

Lemma append_inv_head (p a b : string) : (p ++ a = p ++ b)%string -> a = b.
Proof.
  induction p as [|c p IH]; simpl; [trivial|]. intros H. injection H as H. auto.
Qed.

Lemma append_inv_tail (a b s : string) : (a ++ s = b ++ s)%string -> a = b.
Proof.
  revert b. induction a as [|c a IH]; intros [|d b] H; simpl in H.
  - reflexivity.
  - apply (f_equal String.length) in H. simpl in H.
    rewrite length_append in H. lia.
  - apply (f_equal String.length) in H. simpl in H.
    rewrite length_append in H. lia.
  - injection H as -> H. f_equal. now apply IH.
Qed.

(** X5: the text of an error message tells which error it is, and for an
    unexpected error which exception text it carries. *)
Theorem message_injective (e1 e2 : error) : message e1 = message e2 -> e1 = e2.
Proof.
  destruct e1 as [| | | | a], e2 as [| | | | b]; intros H;
    try reflexivity; try (vm_compute in H; discriminate).
  unfold message in H. apply append_inv_head, append_inv_tail in H. now subst.
Qed.

Lemma message_injective_witness :
  UnexpectedError "'engagements'" = UnexpectedError "'engagements'".
Proof. apply (message_injective _ _). reflexivity. Defined.

(** ** The page of a run *)

Definition upload_prompt : string :=
  "Please upload your CSV file above to start analyzing your Ramadan Campaign data.".

Lemma charts_no_error {N : Numbers} (figs : list event) :
  forallb is_chart figs = true -> filter is_error figs = [].
Proof.
  induction figs as [|e figs IH]; simpl; [reflexivity|].
  intros H. apply andb_true_iff in H as [H1 H2].
  destruct e; try discriminate. simpl. now apply IH.
Qed.

Lemma charts_no_info {N : Numbers} (figs : list event) (msg : string) :
  forallb is_chart figs = true -> ~ In (st_info msg) figs.
Proof.
  intros H I. rewrite forallb_forall in H. specialize (H _ I). discriminate.
Qed.

Section PageFacts.

Context {U : Unicode} {N : Numbers} {P : Parsers} {S : SortValues}.

(** X6: the prompt to upload a file is on the page exactly when the script
    has no frame to draw from: nothing was uploaded, or the upload was
    turned down. *)
Theorem prompt_iff_no_frame (uploaded_file : option upload) :
  result_of (load uploaded_file) = Return None <->
  In (st_info upload_prompt) (page_of (main uploaded_file)).
Proof.
  destruct uploaded_file as [u|]; [|split; [now left | reflexivity]].
  pose proof (main_page u) as M. unfold result_of. rewrite load_pipeline.
  destruct (pipeline u) as [e | df].
  - rewrite M. split; [|reflexivity]. intros _.
    apply in_or_app. right. right. now left.
  - destruct M as (figs & -> & F). split; [discriminate|].
    intros I. exfalso. apply in_app_or in I as [I | I].
    + destruct u; simpl in I; try contradiction.
      destruct I as [I | []]. discriminate.
    + apply in_app_or in I as [I | I].
      * destruct I as [I | [I | []]]; discriminate.
      * exact (charts_no_info figs _ F I).
Qed.

(** X7: a run shows at most one error message: none when nothing was
    uploaded or the upload was cleaned, and the message of the error when
    it was turned down. *)
Theorem errors_on_page (uploaded_file : option upload) :
  filter is_error (page_of (main uploaded_file)) =
  match uploaded_file with
  | None => []
  | Some u =>
      match pipeline u with
      | inl e => [st_error (message e)]
      | inr _ => []
      end
  end.
Proof.
  destruct uploaded_file as [u|]; [|reflexivity].
  pose proof (main_page u) as M.
  assert (filter is_error (uploaded u) = []) as Hu by now destruct u.
  destruct (pipeline u) as [e | df].
  - rewrite M, filter_app, Hu. reflexivity.
  - destruct M as (figs & -> & F).
    rewrite !filter_app, Hu, (charts_no_error figs F). reflexivity.
Qed.

End PageFacts.

(** ** Looking a column up *)

Definition text_dec : forall a b : text, {a = b} + {a <> b} :=
  list_eq_dec N.eq_dec.

Lemma filter_count {A : Type} (df : list (text * A)) (key : text) :
  List.length (filter (fun col => Text.eqb (fst col) key) df) =
  count_occ text_dec (columns df) key.
Proof.
  induction df as [|[c s] df IH]; simpl; [reflexivity|].
  destruct (Text.eqb c key) eqn:E.
  - apply text_eqb_eq in E. subst c.
    destruct (text_dec key key); [simpl; now rewrite IH | contradiction].
  - destruct (text_dec c key) as [-> | _]; [|exact IH].
    now rewrite text_eqb_refl in E.
Qed.

(** [df[key]] by the number of headers that are [key]. *)
Lemma getitem_cases {A : Type} (df : list (text * A)) (key : string) :
  match getitem df key with
  | NoColumn =>
      count_occ text_dec (columns df) (codes key) = 0 /\
      has_column df key = false
  | OneColumn s =>
      count_occ text_dec (columns df) (codes key) = 1 /\ In (codes key, s) df
  | SubFrame cols =>
      2 <= count_occ text_dec (columns df) (codes key) /\
      List.length cols = count_occ text_dec (columns df) (codes key) /\
      forall s, In s cols -> In (codes key, s) df
  end.
Proof.
  pose proof (filter_count df (codes key)) as C. unfold getitem.
  assert (forall col,
            In col (filter (fun col => Text.eqb (fst col) (codes key)) df) ->
            In (codes key, snd col) df) as I.
  { intros [c s] H. apply filter_In in H as [H E]. simpl in E.
    apply text_eqb_eq in E. now subst. }
  destruct (filter (fun col => Text.eqb (fst col) (codes key)) df)
    as [|c1 [|c2 l]].
  - simpl in C. split; [now symmetry|].
    destruct (has_column df key) eqn:H; [|reflexivity].
    apply has_column_In in H.
    apply (count_occ_In text_dec) in H. lia.
  - simpl in C. split; [now symmetry|]. apply I. now left.
  - simpl in C. split; [lia|]. split.
    + rewrite length_map. exact C.
    + intros s H. apply in_map_iff in H as (col & <- & H). now apply I.
Qed.

(** ** Which uploads are cleaned *)

Section Accepted.

Context {U : Unicode} {N : Numbers} {P : Parsers}.

Lemma to_datetime_series_parseable (s : Series) (ts : list (option Z)) :
  to_datetime_series s = Some ts ->
  Forall (parseable s) s /\ List.length ts = List.length s.
Proof.
  unfold to_datetime_series. intros H.
  apply convert_all_Forall2 in H. split; [|symmetry; exact (Forall2_length H)].
  revert H. generalize s at 1 3 as ctx. intros ctx H.
  induction H as [|c t l ts' Hc _ IH]; constructor; [|exact IH].
  destruct c as [text|]; simpl in *; [|exact I].
  destruct (parse_datetime ctx text) as [z|]; [now exists z | discriminate].
Qed.


(** X10: two headers that are renamed to the same required name: with
    [date] twice the upload is turned down with the date error whatever
    the fields hold; with [engagements] twice it is turned down with the
    unexpected-error message. *)
Theorem renamed_twice (df : DataFrame) (page : list event) :
  schema_ok (rename normalize df) = true ->
  (2 <= count_occ text_dec (columns (rename normalize df)) (codes "date") ->
   load (Some (table df)) page =
     (Return None,
      page ++ [st_success "CSV file uploaded successfully! Processing data...";
               st_error (message DateCoercionError)])) /\
  (forall col,
     getitem (rename normalize df) "date" = OneColumn col ->
     Forall (parseable col) col ->
     2 <= count_occ text_dec (columns (rename normalize df))
            (codes "engagements") ->
     load (Some (table df)) page =
       (Return None,
        page ++ [st_success "CSV file uploaded successfully! Processing data...";
                 st_error (message (UnexpectedError
                   "arg must be a list, tuple, 1-d array, or Series"))])).
Proof.
  intros Hs. rewrite load_pipeline. unfold pipeline. cbv zeta. rewrite Hs.
  split.
  - intros C. pose proof (getitem_cases (rename normalize df) "date") as G.
    destruct (getitem (rename normalize df) "date") as [| s | cols];
      [reflexivity | | reflexivity].
    destruct G as [G _]. lia.
  - intros col Gd F C. rewrite Gd.
    destruct (to_datetime_series_all col F) as (ts & -> & _).
    pose proof (getitem_cases (rename normalize df) "engagements") as G.
    destruct (getitem (rename normalize df) "engagements") as [| s | cols].
    + destruct G as [G _]. lia.
    + destruct G as [G _]. lia.
    + reflexivity.
Qed.

End Accepted.


Lemma renamed_twice_witness :
  load (U := no_sigma) (N := exact) (P := plain)
    (Some (table (campaign march counts ++ [(codes "date ", march_broken)]))) [] =
  (Return None,
   [st_success "CSV file uploaded successfully! Processing data...";
    st_error (message DateCoercionError)]).
Proof.
  destruct (renamed_twice (U := no_sigma) (N := exact) (P := plain)
              (campaign march counts ++ [(codes "date ", march_broken)]) []
              eq_refl)
    as [H _].
  apply H. vm_compute. apply le_n.
Defined.

(** ** Counts and the trend *)

Lemma values_of_count (k : string) (s : Series) :
  List.length (values_of k s s) = count_occ string_dec (labels s) k.
Proof.
  unfold values_of. rewrite length_map.
  assert (forall vals : Series,
            List.length vals = List.length s ->
            List.length
              (filter (fun row : cell * cell =>
                         match fst row with
                         | Some k' => String.eqb k k'
                         | None => false
                         end) (combine s vals)) =
            count_occ string_dec (labels s) k) as H.
  { induction s as [|[k'|] s IH]; intros [|v vals] L; simpl in *;
      try discriminate; try reflexivity.
    - destruct (String.eqb_spec k k') as [-> | Hn].
      + destruct (string_dec k' k'); [|contradiction]. simpl. f_equal.
        apply IH. now injection L.
      + destruct (string_dec k' k); [congruence|]. apply IH. now injection L.
    - apply IH. now injection L. }
  now apply H.
Qed.

Lemma present_units (s : Series) :
  total (present (combine s (map (fun _ : cell => 1%Z) s))) =
  Z.of_nat (List.length (labels s)).
Proof.
  unfold present. induction s as [|[k|] s IH]; [reflexivity | |].
  - cbn [map combine labels List.length filter fst]. cbn [map snd total fold_right].
    fold (total (map snd
      (filter (fun row : option string * Z =>
                 match fst row with Some _ => true | None => false end)
              (combine s (map (fun _ : cell => 1%Z) s))))).
    rewrite IH, Nat2Z.inj_succ. lia.
  - cbn [map combine labels filter fst]. exact IH.
Qed.

Lemma total_units {A : Type} (l : list A) :
  total (map (fun _ => 1%Z) l) = Z.of_nat (List.length l).
Proof.
  induction l as [|a l IH]; [reflexivity|].
  cbn [map total fold_right List.length]. fold (total (map (fun _ : A => 1%Z) l)).
  rewrite IH, Nat2Z.inj_succ. lia.
Qed.

Section Counts.

Context {S : SortValues}.

(** X14: the sentiment and media-type counts: one row per label that
    occurs, holding the number of rows with that label, rows with no label
    left out; the largest count comes first, every count is at least 1,
    and the counts add up to the number of labelled rows. *)
Theorem value_counts_spec (s : Series) :
  StronglySorted descending (value_counts s) /\
  NoDup (map fst (value_counts s)) /\
  (forall k n,
     In (k, n) (value_counts s) <->
     In k (distinct s) /\ n = Z.of_nat (count_occ string_dec (labels s) k)) /\
  Forall (fun row => (1 <= snd row)%Z) (value_counts s) /\
  total (map snd (value_counts s)) = Z.of_nat (List.length (labels s)).
Proof.
  destruct (sorted_groups_spec Z.leb
              (fun rows : list cell => Z.of_nat (List.length rows)) s s
              Z_leb_total Z_leb_trans eq_refl) as (Hp & Hd & H & Hs).
  cbv zeta in Hp, Hd, H, Hs. fold (value_counts s) in Hp, Hd, H, Hs.
  assert (forall k n,
            In (k, n) (value_counts s) <->
            In k (distinct s) /\
            n = Z.of_nat (count_occ string_dec (labels s) k)) as H'.
  { intros k n. rewrite H, values_of_count. reflexivity. }
  split; [|split; [exact Hd|split; [exact H'|split]]].
  - eapply StronglySorted_ind with (P := StronglySorted descending) in Hs;
      [exact Hs | constructor |].
    intros a l _ IH Hf. constructor; [exact IH|].
    eapply Forall_impl; [|exact Hf]. unfold descending_by, descending.
    intros b Hb. now apply Z.leb_le.
  - apply Forall_forall. intros [k n] I. apply H' in I as [I ->]. simpl.
    unfold distinct in I. apply nodup_In in I.
    apply (count_occ_In string_dec) in I. lia.
  - transitivity
      (total (map snd (aggregate (fun rows : list cell => Z.of_nat (List.length rows))
                                 (groupby String.compare s s)))).
    + symmetry. apply total_perm, Permutation_map. exact Hp.
    + etransitivity; [|apply present_units].
      etransitivity;
        [|apply (groupby_total String.compare s (map (fun _ : cell => 1%Z) s))].
      unfold grand_total. rewrite groupby_map. unfold aggregate.
      rewrite !List.map_map. f_equal. apply map_ext. intros [k vs]. simpl.
      symmetry. apply total_units.
Qed.

End Counts.

Lemma Z_cmp_antisym (a b : Z) : (a ?= b)%Z = CompOpp (b ?= a)%Z.
Proof. exact (Z.compare_antisym b a). Qed.

Lemma Z_cmp_trans (a b c : Z) :
  (a ?= b)%Z = Lt -> (b ?= c)%Z = Lt -> (a ?= c)%Z = Lt.
Proof. exact (Z.lt_trans a b c). Qed.

(** The values, in row order, of the rows dated [t]. *)
Definition dated {V : Type} (t : Z) (dates : list (option Z)) (vals : list V)
  : list V :=
  map snd
    (filter (fun row => match fst row with
                        | Some t' => Z.eqb t t'
                        | None => false
                        end)
            (combine dates vals)).

Lemma same_Z_eqb (a b : Z) : same Z.compare a b = Z.eqb a b.
Proof.
  unfold same. destruct (Z.eqb_spec a b) as [-> | Hn].
  - now rewrite Z.compare_refl.
  - destruct (a ?= b)%Z eqn:E; try reflexivity.
    apply Z.compare_eq_iff in E. contradiction.
Qed.

(** X16: the trend has one row per date that occurs, earliest first, each
    with the sum, as the column computes it, of the engagements of the
    rows of that date; rows with no date are left out. *)
Theorem trend_spec {N : Numbers} (dates : list (option Z)) (vals : list num) :
  StronglySorted Z.lt (map fst (engagements_over_time dates vals)) /\
  NoDup (map fst (engagements_over_time dates vals)) /\
  (forall t, In t (map fst (engagements_over_time dates vals)) <->
             In (Some t) (map fst (combine dates vals))) /\
  (forall t v, In (t, v) (engagements_over_time dates vals) ->
               v = sum (dated t dates vals)).
Proof.
  unfold engagements_over_time, groupby_sum.
  destruct (groupby_spec Z.compare Z.compare_eq_iff Z_cmp_antisym
              Z_cmp_trans dates vals) as (Hs & Hd & Hk & Hv).
  rewrite aggregate_keys.
  split; [exact Hs|]. split; [exact Hd|]. split; [exact Hk|].
  intros t v I. apply aggregate_In in I as (vs & I & ->). f_equal.
  rewrite (Hv t vs I). unfold rows_of, dated. f_equal.
  apply filter_ext. intros [[t'|] w]; simpl; [apply same_Z_eqb | reflexivity].
Qed.

(** ** The cleaned frame *)

Section Setitem.

Context {N : Numbers}.

Lemma filter_replace (df : Dataset) (key key' : text) (col : column) :
  key <> key' ->
  filter (fun c => Text.eqb (fst c) key)
         (map (fun c => if Text.eqb (fst c) key' then (fst c, col) else c) df) =
  filter (fun c => Text.eqb (fst c) key) df.
Proof.
  intros Hn. induction df as [|[h c] df IH]; simpl; [reflexivity|].
  destruct (Text.eqb h key') eqn:E'; simpl.
  - apply text_eqb_eq in E'. subst h.
    destruct (Text.eqb key' key) eqn:E; [|exact IH].
    apply text_eqb_eq in E. congruence.
  - destruct (Text.eqb h key); [now rewrite IH | exact IH].
Qed.

Lemma filter_replaced (df : Dataset) (key : text) (col : column) :
  filter (fun c => Text.eqb (fst c) key)
         (map (fun c => if Text.eqb (fst c) key then (fst c, col) else c) df) =
  map (fun c => (fst c, col)) (filter (fun c => Text.eqb (fst c) key) df).
Proof.
  induction df as [|[h c] df IH]; simpl; [reflexivity|].
  destruct (Text.eqb h key) eqn:E; simpl; rewrite E; [simpl; now rewrite IH | exact IH].
Qed.

Lemma getitem_setitem_other (df : Dataset) (key key' : string) (col : column) :
  codes key <> codes key' ->
  getitem (setitem df key' col) key = getitem df key.
Proof.
  intros Hn. unfold getitem, setitem. destruct (has_column df key').
  - now rewrite filter_replace.
  - rewrite filter_app. simpl.
    destruct (Text.eqb (codes key') (codes key)) eqn:E.
    + apply text_eqb_eq in E. congruence.
    + now rewrite app_nil_r.
Qed.

Lemma getitem_setitem_same (df : Dataset) (key : string) (old col : column) :
  getitem df key = OneColumn old ->
  getitem (setitem df key col) key = OneColumn col.
Proof.
  intros H. pose proof (getitem_cases df key) as C. rewrite H in C.
  destruct C as [_ C]. unfold setitem.
  assert (has_column df key = true) as Hh.
  { apply has_column_In. now apply (in_map fst) in C. }
  rewrite Hh. unfold getitem in *. rewrite filter_replaced.
  destruct (filter (fun c => Text.eqb (fst c) (codes key)) df) as [|c [|c' l]];
    try discriminate. reflexivity.
Qed.

Lemma columns_setitem (df : Dataset) (key : string) (col : column) :
  has_column df key = true -> columns (setitem df key col) = columns df.
Proof.
  intros H. unfold setitem, columns. rewrite H, List.map_map.
  apply map_ext. intros [h c]. simpl. now destruct (Text.eqb h (codes key)).
Qed.

Lemma getitem_as_read (df : DataFrame) (key : string) :
  getitem (as_read df) key =
  match getitem df key with
  | NoColumn => NoColumn
  | OneColumn s => OneColumn (text_column s)
  | SubFrame cols => SubFrame (map text_column cols)
  end.
Proof.
  unfold getitem, as_read.
  assert (filter (fun c : text * column => Text.eqb (fst c) (codes key))
                 (map (fun c : text * Series => (fst c, text_column (snd c))) df) =
          map (fun c : text * Series => (fst c, text_column (snd c)))
              (filter (fun c => Text.eqb (fst c) (codes key)) df)) as E.
  { induction df as [|[h s] df IH]; simpl; [reflexivity|].
    destruct (Text.eqb h (codes key)); simpl; now rewrite IH. }
  rewrite E.
  destruct (filter (fun c => Text.eqb (fst c) (codes key)) df) as [|c [|c' l]];
    try reflexivity.
  simpl. now rewrite !List.map_map.
Qed.

Lemma columns_as_read (df : DataFrame) : columns (as_read df) = columns df.
Proof. unfold columns, as_read. now rewrite List.map_map. Qed.

(** The cleaned frame, column by column. *)
Lemma cleaned_frame_columns
  (df : DataFrame) (d e : Series) (ts : list (option Z)) (ns : list num) :
  getitem df "date" = OneColumn d ->
  getitem df "engagements" = OneColumn e ->
  columns (cleaned_frame df ts ns) = columns df /\
  getitem (cleaned_frame df ts ns) "date" = OneColumn (datetime_column ts) /\
  getitem (cleaned_frame df ts ns) "engagements" = OneColumn (numeric_column ns) /\
  forall key,
    codes key <> codes "date" -> codes key <> codes "engagements" ->
    getitem (cleaned_frame df ts ns) key = getitem (as_read df) key.
Proof.
  intros Hd He. unfold cleaned_frame.
  assert (getitem (as_read df) "date" = OneColumn (text_column d)) as Hd'
    by now rewrite getitem_as_read, Hd.
  assert (getitem (setitem (as_read df) "date" (datetime_column ts)) "engagements"
          = OneColumn (text_column e)) as He'.
  { rewrite getitem_setitem_other by discriminate.
    now rewrite getitem_as_read, He. }
  assert (forall (f : Dataset) key c, getitem f key = OneColumn c ->
                                      has_column f key = true) as Hh.
  { intros f key c H. pose proof (getitem_cases f key) as C. rewrite H in C.
    apply has_column_In. destruct C as [_ C]. now apply (in_map fst) in C. }
  split; [|split; [|split]].
  - rewrite columns_setitem by (eapply Hh; exact He').
    rewrite columns_setitem by (eapply Hh; exact Hd').
    apply columns_as_read.
  - rewrite getitem_setitem_other by discriminate.
    now apply getitem_setitem_same with (old := text_column d).
  - now apply getitem_setitem_same with (old := text_column e).
  - intros key H1 H2. now rewrite !getitem_setitem_other.
Qed.

End Setitem.

Section CleanedFrame.

Context {U : Unicode} {N : Numbers} {P : Parsers}.

(** A cleaned frame is the renamed one with its two converted columns. *)
Lemma load_cleaned (df : DataFrame) (ds : Dataset) :
  result_of (load (Some (table df))) = Return (Some ds) ->
  exists d ts e,
    getitem (rename normalize df) "date" = OneColumn d /\
    to_datetime_series d = Some ts /\
    getitem (rename normalize df) "engagements" = OneColumn e /\
    ds = cleaned_frame (rename normalize df) ts (fillna (map (to_numeric_cell e) e)) /\
    pipeline (table df) = inr ds.
Proof.
  unfold result_of. rewrite load_pipeline. unfold pipeline. cbv zeta.
  destruct (schema_ok (rename normalize df)); [|discriminate].
  destruct (getitem (rename normalize df) "date") as [| d | cols] eqn:Hd;
    try discriminate.
  destruct (to_datetime_series d) as [ts|] eqn:Ht; [|discriminate].
  destruct (getitem (rename normalize df) "engagements") as [| e | cols] eqn:He;
    try discriminate.
  cbn [fst]. intros H. injection H as <-. exists d, ts, e. repeat split; first [assumption | reflexivity].
Qed.

Lemma length_fillna (ns : list (option num)) :
  List.length (fillna ns) = List.length ns.
Proof. unfold fillna. apply length_map. Qed.

(** X9: the frame that the cleaning leaves has the renamed headers, in the
    order of the file; under [date] stands the column of instants read
    from the text column of that name, under [engagements] the column of
    numbers read from the text column of that name with 0 for a field
    that is no number, each as long as the column it replaces; every
    other column is the text column of the renamed frame. *)
Theorem cleaned_shape (df : DataFrame) (ds : Dataset) :
  result_of (load (Some (table df))) = Return (Some ds) ->
  columns ds = map normalize (columns df) /\
  (exists d ts,
     getitem (rename normalize df) "date" = OneColumn d /\
     to_datetime_series d = Some ts /\
     getitem ds "date" = OneColumn (datetime_column ts) /\
     List.length ts = List.length d) /\
  (exists e ns,
     getitem (rename normalize df) "engagements" = OneColumn e /\
     ns = fillna (map (to_numeric_cell e) e) /\
     getitem ds "engagements" = OneColumn (numeric_column ns) /\
     List.length ns = List.length e) /\
  (forall key,
     codes key <> codes "date" -> codes key <> codes "engagements" ->
     getitem ds key = getitem (as_read (rename normalize df)) key).
Proof.
  intros H. apply load_cleaned in H as (d & ts & e & Hd & Ht & He & -> & _).
  destruct (cleaned_frame_columns (rename normalize df) d e ts
              (fillna (map (to_numeric_cell e) e)) Hd He)
    as (Hc & Gd & Ge & Go).
  split; [|split; [|split]].
  - rewrite Hc. apply columns_rename.
  - exists d, ts. repeat split; try assumption.
    now apply to_datetime_series_parseable in Ht.
  - exists e, (fillna (map (to_numeric_cell e) e)). repeat split; try assumption.
    now rewrite length_fillna, length_map.
  - exact Go.
Qed.

End CleanedFrame.

Lemma cleaned_shape_witness :
  exists ds : @Dataset exact,
    result_of (load (U := no_sigma) (N := exact) (P := plain)
                 (Some (table (campaign march counts)))) = Return (Some ds) /\
    columns ds = map (normalize (U := no_sigma)) (columns (campaign march counts)).
Proof.
  eexists. split; [reflexivity|].
  apply (cleaned_shape (U := no_sigma) (N := exact) (P := plain)
           (campaign march counts)).
  reflexivity.
Defined.

(** ** The page of an accepted upload *)

Section FiveCharts.

Context {U : Unicode} {N : Numbers} {P : Parsers} {S : SortValues}.

Lemma labels_of_cleaned
  (df : DataFrame) (ts : list (option Z)) (ns : list num) (d e s : Series)
  (key : string) (page : list event) :
  getitem df "date" = OneColumn d ->
  getitem df "engagements" = OneColumn e ->
  codes key <> codes "date" -> codes key <> codes "engagements" ->
  getitem df key = OneColumn s ->
  labels_of (cleaned_frame df ts ns) key page = (Return s, page).
Proof.
  intros Hd He H1 H2 Hs.
  destruct (cleaned_frame_columns df d e ts ns Hd He) as (_ & _ & _ & Go).
  unfold labels_of. rewrite (Go key H1 H2), getitem_as_read, Hs. reflexivity.
Qed.

(** X12: an upload that is cleaned and whose renamed headers hold
    [sentiment], [platform], [media_type] and [location] once each: the
    run returns, and the page is the two success messages, the first
    rows of the cleaned frame, and the five charts in the order of the
    script, each drawn from the label column of its name and the
    converted [date] and [engagements] columns of the cleaned frame. *)
Theorem five_charts
  (df : DataFrame) (ds : Dataset) (sentiment platform media_type location : Series) :
  result_of (load (Some (table df))) = Return (Some ds) ->
  getitem (rename normalize df) "sentiment" = OneColumn sentiment ->
  getitem (rename normalize df) "platform" = OneColumn platform ->
  getitem (rename normalize df) "media_type" = OneColumn media_type ->
  getitem (rename normalize df) "location" = OneColumn location ->
  exists date engagements,
    getitem ds "date" = OneColumn (datetime_column date) /\
    getitem ds "engagements" = OneColumn (numeric_column engagements) /\
    main (Some (table df)) [] =
      (Return tt,
       [st_success "CSV file uploaded successfully! Processing data...";
        st_success "Data successfully cleaned and prepared for analysis!";
        st_dataframe (head_rows ds);
        st_plotly_chart
          (pie "**Overall Sentiment Distribution**" (value_counts sentiment));
        st_plotly_chart
          (bar "**Total Engagements Across Platforms**"
               (platform_engagements platform engagements));
        st_plotly_chart
          (line "**Total Engagements Trend Throughout the Campaign**"
                (engagements_over_time date engagements));
        st_plotly_chart
          (pie "**Distribution of Content Media Types**" (value_counts media_type));
        st_plotly_chart
          (bar "**Top 5 Locations by Total Engagements**"
               (top_5_locations location engagements))]).
Proof.
  intros H Hsen Hpla Hmed Hloc.
  apply load_cleaned in H as (d & ts & e & Hd & Ht & He & -> & Hp).
  set (ns := fillna (map (to_numeric_cell e) e)) in *.
  destruct (cleaned_frame_columns (rename normalize df) d e ts ns Hd He)
    as (_ & Gd & Ge & _).
  exists ts, ns. split; [exact Gd|]. split; [exact Ge|].
  unfold main. unfold bind at 1. rewrite load_pipeline, Hp.
  cbn [app uploaded cleaned].
  unfold charts.
  unfold bind at 1.
  rewrite (labels_of_cleaned _ ts ns d e sentiment "sentiment" _ Hd He)
    by first [discriminate | assumption].
  unfold bind at 1. unfold show at 1.
  unfold bind at 1.
  rewrite (labels_of_cleaned _ ts ns d e platform "platform" _ Hd He)
    by first [discriminate | assumption].
  unfold bind at 1. unfold numbers_of at 1. rewrite Ge. unfold ret at 1.
  unfold bind at 1. unfold show at 1.
  unfold bind at 1. unfold instants_of at 1. rewrite Gd. unfold ret at 1.
  unfold bind at 1. unfold numbers_of at 1. rewrite Ge. unfold ret at 1.
  unfold bind at 1. unfold show at 1.
  unfold bind at 1.
  rewrite (labels_of_cleaned _ ts ns d e media_type "media_type" _ Hd He)
    by first [discriminate | assumption].
  unfold bind at 1. unfold show at 1.
  unfold bind at 1.
  rewrite (labels_of_cleaned _ ts ns d e location "location" _ Hd He)
    by first [discriminate | assumption].
  unfold bind at 1. unfold numbers_of at 1. rewrite Ge. unfold ret at 1.
  unfold show. cbn [app]. reflexivity.
Qed.

End FiveCharts.

(** The page of the three-row campaign: Instagram before TikTok by
    engagements, Jakarta before Bandung. *)
Lemma five_charts_witness :
  exists (ds : @Dataset exact) date engagements,
    getitem ds "date" = OneColumn (datetime_column date) /\
    getitem ds "engagements" = OneColumn (numeric_column engagements) /\
    main (U := no_sigma) (N := exact) (P := plain) (S := keeping_ties)
      (Some (table (campaign march counts))) [] =
      (Return tt,
       [st_success "CSV file uploaded successfully! Processing data...";
        st_success "Data successfully cleaned and prepared for analysis!";
        st_dataframe (head_rows ds);
        st_plotly_chart
          (pie "**Overall Sentiment Distribution**"
               [("positive", 2%Z); ("neutral", 1%Z)]);
        st_plotly_chart
          (bar "**Total Engagements Across Platforms**"
               ([("Instagram", 150%Z); ("TikTok", 45%Z)] : list (string * @num exact)));
        st_plotly_chart
          (line "**Total Engagements Trend Throughout the Campaign**"
                (engagements_over_time (N := exact) date engagements));
        st_plotly_chart
          (pie "**Distribution of Content Media Types**"
               [("video", 2%Z); ("image", 1%Z)]);
        st_plotly_chart
          (bar "**Top 5 Locations by Total Engagements**"
               ([("Jakarta", 150%Z); ("Bandung", 45%Z)] : list (string * @num exact)))]).
Proof.
  eexists.
  destruct (five_charts (U := no_sigma) (N := exact) (P := plain) (S := keeping_ties)
              (campaign march counts) _
              [Some "positive"; Some "neutral"; Some "positive"]
              [Some "Instagram"; Some "TikTok"; Some "Instagram"]
              [Some "video"; Some "image"; Some "video"]
              [Some "Jakarta"; Some "Bandung"; Some "Jakarta"]
              eq_refl eq_refl eq_refl eq_refl eq_refl)
    as (date & engagements & Hd & He & Hm).
  exists date, engagements. split; [exact Hd|]. split; [exact He|].
  rewrite Hm. vm_compute in He. injection He as <-. reflexivity.
Defined.

(** ** Headers outside ASCII *)

(** A header padded with no-break spaces (U+00A0) is stripped like one
    padded with spaces. *)
Example normalize_no_break_space :
  normalize (U := no_sigma) ([160] ++ codes "Media Type" ++ [160; 32])%N =
  codes "media_type".
Proof. reflexivity. Qed.

(** The capital E with acute accent (U+00C9) is lowered to U+00E9. *)
Example normalize_accented :
  normalize (U := no_sigma) [68; 201; 112; 97; 114; 116]%N =
  [100; 233; 112; 97; 114; 116]%N.
Proof. reflexivity. Qed.

(** The capital I with dot above (U+0130) is lowered to two code points,
    so a renamed header can be longer than the header. *)
Example normalize_dotted_capital :
  normalize (U := no_sigma) [304]%N = [105; 775]%N.
Proof. reflexivity. Qed.
